(** * Edge control loop of the environmental monitoring node (main.py)

    A shallow embedding of [main.py]: the module-level globals become a
    [World] record, the devices and the two HTTP endpoints become a per-cycle
    [Env], and every function of the script becomes a computation in a small
    state / output / exception monad.  Python floats are IEEE binary64 and
    are modelled by Rocq's primitive floats, Python ints by [Z]. *)

From Stdlib Require Import ZArith String List Lia.
From Stdlib Require Import Floats.PrimFloat.
From stdpp Require Import base option gmap strings list.

Open Scope string_scope.
Open Scope list_scope.
Open Scope Z_scope.

#[local] Set Warnings "-register-all".

(** ** Configuration constants *)

Definition DHT_PIN : Z := 4.
Definition MQ135_PIN : Z := 17.
(** [LED_PINS] is a dict literal; its items are kept in insertion order,
    which is the order Python iterates them in. *)
Definition LED_PINS : list (string * Z) :=
  [("good", 27); ("moderate", 22); ("bad", 23); ("off", -1)].
Definition FAN_PIN : Z := 18.

Definition BACKEND_API_URL : string := "http://127.0.0.1:3000/api/sensors".
Definition CONTROL_API_URL : string :=
  "http://127.0.0.1:3000/api/logs/control/latest".

Definition AUTO_FAN_TEMP_THRESHOLD : float := 30.0%float.
Definition AUTO_FAN_PM25_THRESHOLD : Z := 75.

(** ** Python values that cross the model's boundary *)

(** Exceptions the script can meet.  [RequestException] stands for the
    whole [requests.exceptions.RequestException] family. *)
Inductive exn :=
| RequestException
| ValueError
| TypeError
| KeyError
| IndexError
| AttributeError.

Definition is_RequestException (e : exn) : bool :=
  match e with RequestException => true | _ => false end.

Inductive result (A : Type) :=
| Ret (a : A)
| Raise (e : exn).
Arguments Ret {A} a.
Arguments Raise {A} e.

(** What [response.json()] can return. A dict is the list of its items;
    keys of a Python dict are unique. *)
Inductive json :=
| JNull
| JBool (b : bool)
| JInt (z : Z)
| JFloat (f : float)
| JStr (s : string)
| JList (l : list json)
| JDict (items : list (string * json)).

(** The value handed to [send_to_backend]: a float (temperature, humidity)
    or an int (pm2.5).  The payload carries [str(value)]; the rendering is
    not modelled and the value itself stands for it. *)
Inductive pyval :=
| PyFloat (f : float)
| PyInt (z : Z).

(** Truth value of an object, as [not commands] tests it. *)
Definition truthy (v : json) : bool :=
  match v with
  | JNull => false
  | JBool b => b
  | JInt z => negb (z =? 0)
  | JFloat f => negb (PrimFloat.eqb f 0%float)
  | JStr s => negb (String.eqb s EmptyString)
  | JList l => match l with [] => false | _ => true end
  | JDict items => match items with [] => false | _ => true end
  end.

(** [v[0]]. *)
Definition getitem0 (v : json) : result json :=
  match v with
  | JList (x :: _) => Ret x
  | JList [] => Raise IndexError
  | JStr (String c _) => Ret (JStr (String c EmptyString))
  | JStr EmptyString => Raise IndexError
  | JDict _ => Raise KeyError
  | JNull | JBool _ | JInt _ | JFloat _ => Raise TypeError
  end.

Fixpoint assoc (key : string) (items : list (string * json)) : option json :=
  match items with
  | [] => None
  | (k, v) :: rest => if String.eqb k key then Some v else assoc key rest
  end.

(** [v.get(key)]: only dicts have the method; a missing key gives [None]. *)
Definition py_get (v : json) (key : string) : result json :=
  match v with
  | JDict items => Ret (default JNull (assoc key items))
  | _ => Raise AttributeError
  end.

(** [v == s] for a string literal [s]. *)
Definition eq_str (v : json) (s : string) : bool :=
  match v with
  | JStr s' => String.eqb s' s
  | _ => false
  end.

(** [last != x] where [last] is [None] or a float and [x] a float. *)
Definition float_ne (last : option float) (x : float) : bool :=
  match last with
  | None => true
  | Some l => negb (PrimFloat.eqb l x)
  end.

(** [last != x] where [last] is [None] or an int and [x] an int. *)
Definition int_ne (last : option Z) (x : Z) : bool :=
  match last with
  | None => true
  | Some l => negb (l =? x)
  end.

(** ** Devices and endpoints *)

(** The DHT11 object: each property either yields a number or fails
    (raises, or is [None], on which [float()] raises). *)
Record DHT11 := mkDHT11 {
  temperature : option float;
  humidity : option float }.

(** The serial port object: broken (every access raises) or holding the
    bytes received and not yet read. *)
Inductive Serial :=
| SerialBroken
| SerialBuffer (rx : list Byte.byte).

Record Response := mkResponse {
  status_code : Z;
  body : result json }.

(** Outcome of one [requests.get] / [requests.post]. *)
Inductive http_outcome :=
| ConnectionFailed
| Responded (r : Response).

(** What the outside world presents during one cycle. *)
Record Env := mkEnv {
  dht_device : option DHT11;
  ser : option Serial;
  gpio_in : Z -> bool;
  control_api : http_outcome;
  backend_api : string -> http_outcome }.

(** ** Globals, output and the monad *)

Record World := mkWorld {
  last_sent_temp : option float;
  last_sent_humid : option float;
  last_sent_pm2_5 : option Z;
  auto_fan_enabled : bool;
  led_enabled : bool;
  gpio_out : gmap Z bool }.

(** One constructor per [print] site. *)
Inductive message :=
| MsgGpioReady
| MsgSendOk (sensor_type : string) (value : pyval)
| MsgSendFailed (sensor_type : string) (code : Z)
| MsgBackendError (sensor_type : string)
| MsgLed (status : string)
| MsgFan (state : bool)
| MsgControlFailed (code : Z)
| MsgNoCommand
| MsgCommand (latest_command : json)
| MsgManualFan
| MsgControlNetworkError
| MsgControlError
| MsgStatus (temp humid : option float) (pm2_5 : option Z)
            (auto_fan led : bool).

Inductive event :=
| HttpGet (url : string)
| HttpPost (url : string) (sensor_type : string) (value : pyval)
| GpioOutput (pin : Z) (level : bool)
| Stdout (m : message)
| Sleep (seconds : Z).

Definition M (A : Type) : Type := World -> result A * World * list event.

Definition run_result {A} (m : M A) (w : World) : result A := (m w).1.1.
Definition run_world {A} (m : M A) (w : World) : World := (m w).1.2.
Definition run_trace {A} (m : M A) (w : World) : list event := (m w).2.

#[global] Instance M_ret : MRet M := fun A a w => (Ret a, w, []).

#[global] Instance M_bind : MBind M := fun A B f m w =>
  match m w with
  | (Ret a, w1, t1) =>
      match f a w1 with
      | (r, w2, t2) => (r, w2, t1 ++ t2)
      end
  | (Raise e, w1, t1) => (Raise e, w1, t1)
  end.

Definition raise {A} (e : exn) : M A := fun w => (Raise e, w, []).

Definition lift {A} (r : result A) : M A := fun w => (r, w, []).

Definition emit (e : event) : M unit := fun w => (Ret tt, w, [e]).

Definition print (m : message) : M unit := emit (Stdout m).

Definition read_global {A} (field : World -> A) : M A :=
  fun w => (Ret (field w), w, []).

Definition modify (f : World -> World) : M unit :=
  fun w => (Ret tt, f w, []).

(** [try: body / except ...: handler].  [handler e = None] means no
    [except] clause matches [e], which then propagates. *)
Definition try_except {A} (body : M A) (handler : exn -> option (M A)) : M A :=
  fun w =>
    match body w with
    | (Ret a, w1, t1) => (Ret a, w1, t1)
    | (Raise e, w1, t1) =>
        match handler e with
        | Some h =>
            match h w1 with
            | (r, w2, t2) => (r, w2, t1 ++ t2)
            end
        | None => (Raise e, w1, t1)
        end
    end.

Fixpoint for_each {A} (l : list A) (body : A -> M unit) : M unit :=
  match l with
  | [] => mret tt
  | x :: rest => body x ;; for_each rest body
  end.

(** Assignments to the globals. *)
Definition set_last_sent_temp (v : option float) (w : World) : World :=
  mkWorld v (last_sent_humid w) (last_sent_pm2_5 w)
          (auto_fan_enabled w) (led_enabled w) (gpio_out w).
Definition set_last_sent_humid (v : option float) (w : World) : World :=
  mkWorld (last_sent_temp w) v (last_sent_pm2_5 w)
          (auto_fan_enabled w) (led_enabled w) (gpio_out w).
Definition set_last_sent_pm2_5 (v : option Z) (w : World) : World :=
  mkWorld (last_sent_temp w) (last_sent_humid w) v
          (auto_fan_enabled w) (led_enabled w) (gpio_out w).
Definition set_auto_fan_enabled (b : bool) (w : World) : World :=
  mkWorld (last_sent_temp w) (last_sent_humid w) (last_sent_pm2_5 w)
          b (led_enabled w) (gpio_out w).
Definition set_led_enabled (b : bool) (w : World) : World :=
  mkWorld (last_sent_temp w) (last_sent_humid w) (last_sent_pm2_5 w)
          (auto_fan_enabled w) b (gpio_out w).
Definition set_gpio_out (g : gmap Z bool) (w : World) : World :=
  mkWorld (last_sent_temp w) (last_sent_humid w) (last_sent_pm2_5 w)
          (auto_fan_enabled w) (led_enabled w) g.

(** [GPIO.output(pin, level)]. *)
Definition GPIO_output (pin : Z) (level : bool) : M unit :=
  modify (fun w => set_gpio_out (<[pin := level]> (gpio_out w)) w) ;;
  emit (GpioOutput pin level).

(** [GPIO.input(pin)]: 0 or 1. *)
Definition GPIO_input (levels : Z -> bool) (pin : Z) : Z :=
  Z.b2z (levels pin).

(** ** The script's functions *)

(** Pin modes ([GPIO.setmode], [GPIO.setup]) are not tracked, only the
    levels driven on the output pins. *)
Definition setup_gpio : M unit :=
  for_each (map snd LED_PINS) (fun pin =>
    if negb (pin =? -1) then GPIO_output pin false else mret tt) ;;
  GPIO_output FAN_PIN false ;;
  print MsgGpioReady.

Definition read_dht11 (dht_device : option DHT11)
  : option float * option float :=
  match dht_device with
  | None => (None, None)
  | Some dev =>
      match temperature dev, humidity dev with
      | Some t, Some h => (Some t, Some h)
      | _, _ => (None, None)
      end
  end.

(** [int.from_bytes(data, byteorder='big')]. *)
Definition from_bytes_big (data : list Byte.byte) : Z :=
  fold_left (fun acc b => acc * 256 + Z.of_N (Byte.to_N b)) data 0.

(** [data[i]] of a bytes object, as an int. *)
Definition byte_at (data : list Byte.byte) (i : nat) : result Z :=
  match nth_error data i with
  | Some b => Ret (Z.of_N (Byte.to_N b))
  | None => Raise IndexError
  end.

(** [data[i:j]]. *)
Definition slice {A} (data : list A) (i j : nat) : list A :=
  firstn (j - i) (skipn i data).

(** Returns the reading together with the port as the call leaves it:
    [ser.read(32)] consumes the block. *)
Definition read_pms7003 (ser : option Serial) : option Z * option Serial :=
  match ser with
  | None => (None, None)
  | Some SerialBroken => (None, Some SerialBroken)
  | Some (SerialBuffer rx) =>
      if (32 <=? Z.of_nat (length rx)) then
        let data := firstn 32 rx in
        let ser' := Some (SerialBuffer (skipn 32 rx)) in
        match byte_at data 0, byte_at data 1 with
        | Ret b0, Ret b1 =>
            if (b0 =? 66) && (b1 =? 77)
            then (Some (from_bytes_big (slice data 12 14)), ser')
            else (None, ser')
        | _, _ => (None, ser')
        end
      else (None, Some (SerialBuffer rx))
  end.

Definition read_mq135 (levels : Z -> bool) : Z := GPIO_input levels MQ135_PIN.

(** [requests.post(BACKEND_API_URL, json=payload, timeout=5)]. *)
Definition requests_post (api : string -> http_outcome)
    (sensor_type : string) (value : pyval) : M Response :=
  emit (HttpPost BACKEND_API_URL sensor_type value) ;;
  match api sensor_type with
  | ConnectionFailed => raise RequestException
  | Responded r => mret r
  end.

(** [requests.get(CONTROL_API_URL, timeout=5)]. *)
Definition requests_get (api : http_outcome) : M Response :=
  emit (HttpGet CONTROL_API_URL) ;;
  match api with
  | ConnectionFailed => raise RequestException
  | Responded r => mret r
  end.

Definition send_to_backend (api : string -> http_outcome)
    (sensor_type : string) (value : pyval) : M unit :=
  try_except
    (response ← requests_post api sensor_type value;
     if status_code response =? 201
     then print (MsgSendOk sensor_type value)
     else print (MsgSendFailed sensor_type (status_code response)))
    (fun e =>
       if is_RequestException e
       then Some (print (MsgBackendError sensor_type))
       else None).

Definition set_led (status : string) : M unit :=
  (if String.eqb status "off" then
     for_each (map snd LED_PINS) (fun pin =>
       if negb (pin =? -1) then GPIO_output pin false else mret tt)
   else
     for_each LED_PINS (fun '(name, pin) =>
       if negb (pin =? -1)
       then GPIO_output pin (String.eqb name status)
       else mret tt)) ;;
  print (MsgLed status).

Definition control_fan (state : bool) : M unit :=
  GPIO_output FAN_PIN state ;;
  print (MsgFan state).

Definition apply_latest_commands (api : http_outcome) : M unit :=
  try_except
    (response ← requests_get api;
     if negb (status_code response =? 200) then
       print (MsgControlFailed (status_code response))
     else
       commands ← lift (body response);
       if negb (truthy commands) then
         print MsgNoCommand
       else
         latest_command ← lift (getitem0 commands);
         target ← lift (py_get latest_command "target");
         action ← lift (py_get latest_command "action");
         print (MsgCommand latest_command) ;;
         if eq_str target "led" then
           modify (set_led_enabled (eq_str action "on"))
         else if eq_str target "autoFan" then
           modify (set_auto_fan_enabled (eq_str action "enable"))
         else if eq_str target "fan" then
           source ← lift (py_get latest_command "source");
           if eq_str source "user" then
             modify (set_auto_fan_enabled false) ;;
             control_fan (eq_str action "on") ;;
             print MsgManualFan
           else mret tt
         else mret tt)
    (fun e =>
       if is_RequestException e
       then Some (print MsgControlNetworkError)
       else Some (print MsgControlError)).

(** One iteration of the [while True] loop of [main_loop]. *)
Definition main_loop_body (env : Env) : M unit :=
  apply_latest_commands (control_api env) ;;
  let '(temp, humid) := read_dht11 (dht_device env) in
  let pm2_5 := (read_pms7003 (ser env)).1 in
  let air_quality_digital := read_mq135 (gpio_in env) in
  last ← read_global last_sent_temp;
  match temp with
  | Some t =>
      if float_ne last t then
        send_to_backend (backend_api env) "temperature" (PyFloat t) ;;
        modify (set_last_sent_temp (Some t))
      else mret tt
  | None => mret tt
  end ;;
  last ← read_global last_sent_humid;
  match humid with
  | Some h =>
      if float_ne last h then
        send_to_backend (backend_api env) "humidity" (PyFloat h) ;;
        modify (set_last_sent_humid (Some h))
      else mret tt
  | None => mret tt
  end ;;
  last ← read_global last_sent_pm2_5;
  match pm2_5 with
  | Some p =>
      if int_ne last p then
        send_to_backend (backend_api env) "pm25" (PyInt p) ;;
        modify (set_last_sent_pm2_5 (Some p))
      else mret tt
  | None => mret tt
  end ;;
  auto ← read_global auto_fan_enabled;
  (if auto : bool then
     let is_hot :=
       match temp with
       | Some t => PrimFloat.leb AUTO_FAN_TEMP_THRESHOLD t
       | None => false
       end in
     let is_dusty :=
       match pm2_5 with
       | Some p => AUTO_FAN_PM25_THRESHOLD <=? p
       | None => false
       end in
     control_fan (is_hot || is_dusty)
   else mret tt) ;;
  led ← read_global led_enabled;
  (if led : bool then
     match pm2_5 with
     | None => set_led "off"
     | Some p =>
         if (air_quality_digital =? 0) && (p <? 35) then set_led "good"
         else if (air_quality_digital =? 0) || (p <? 75) then set_led "moderate"
         else set_led "bad"
     end
   else set_led "off") ;;
  auto ← read_global auto_fan_enabled;
  led ← read_global led_enabled;
  print (MsgStatus temp humid pm2_5 auto led) ;;
  emit (Sleep 5).

(** The first [length envs] iterations of [main_loop]; an exception leaving
    an iteration ends the loop. *)
Fixpoint main_loop (envs : list Env) : M unit :=
  match envs with
  | [] => mret tt
  | env :: rest => main_loop_body env ;; main_loop rest
  end.

(** The globals as the module initialises them, over given pin levels. *)
Definition initial_world (g : gmap Z bool) : World :=
  mkWorld None None None true true g.

(** ** Observing a trace *)

(** The levels written to [pin], in order. *)
Definition pin_write (pin : Z) (e : event) : option bool :=
  match e with
  | GpioOutput p level => if p =? pin then Some level else None
  | _ => None
  end.

Definition fan_writes (tr : list event) : list bool :=
  omap (pin_write FAN_PIN) tr.

(** The arguments of the [set_led] calls: each call ends with its [print]. *)
Definition led_call (e : event) : option string :=
  match e with
  | Stdout (MsgLed status) => Some status
  | _ => None
  end.

Definition led_calls (tr : list event) : list string := omap led_call tr.

(** The telemetry calls: sensor type and value of every POST. *)
Definition post (e : event) : option (string * pyval) :=
  match e with
  | HttpPost _ sensor_type value => Some (sensor_type, value)
  | _ => None
  end.

Definition posts (tr : list event) : list (string * pyval) := omap post tr.

(** The values posted under one sensor type. *)
Definition posts_for (sensor_type : string) (tr : list event) : list pyval :=
  omap (fun e =>
          match e with
          | HttpPost _ st value =>
              if String.eqb st sensor_type then Some value else None
          | _ => None
          end) tr.

(** The three ways a command fetch fails, and a body that parses but is
    not a sequence of objects. *)
Inductive fetch_failure : http_outcome -> Prop :=
| fetch_transport_error :
    fetch_failure ConnectionFailed
| fetch_bad_status code b :
    code <> 200 ->
    fetch_failure (Responded (mkResponse code b))
| fetch_malformed_body e :
    fetch_failure (Responded (mkResponse 200 (Raise e)))
| fetch_not_directives v :
    truthy v = true ->
    (forall items rest, v <> JList (JDict items :: rest)) ->
    fetch_failure (Responded (mkResponse 200 (Ret v))).

(** [last] differs from the fresh float [x], or nothing was stored yet.
    Float comparison is IEEE's, as Python's [!=]. *)
Definition differs_float (last : option float) (x : float) : Prop :=
  last = None \/ exists l, last = Some l /\ PrimFloat.eqb l x = false.

Definition differs_int (last : option Z) (x : Z) : Prop :=
  last = None \/ exists l, last = Some l /\ l <> x.

(** Change-driven reporting of one metric during one iteration: [sent]
    are the values posted for it, [last] and [last'] the stored last-sent
    value before and after. *)
Definition reported_on_change {A} (differs : option A -> A -> Prop)
    (inj : A -> pyval) (reading last last' : option A)
    (sent : list pyval) : Prop :=
  (forall v, In v sent <->
             exists x, reading = Some x /\ differs last x /\ v = inj x) /\
  (length sent <= 1)%nat /\
  (reading = None -> sent = [] /\ last' = last).

(** ** Summaries of the straight-line parts

    Closed forms of what each part of an iteration leaves behind; the
    lemmas of the next part show that the code computes them. *)

(** The line [send_to_backend] prints. *)
Definition send_message (api : string -> http_outcome)
    (sensor_type : string) (value : pyval) : message :=
  match api sensor_type with
  | ConnectionFailed => MsgBackendError sensor_type
  | Responded r =>
      if status_code r =? 201 then MsgSendOk sensor_type value
      else MsgSendFailed sensor_type (status_code r)
  end.

Definition led_levels (status : string) (g : gmap Z bool) : gmap Z bool :=
  <[23 := String.eqb "bad" status]>
    (<[22 := String.eqb "moderate" status]>
       (<[27 := String.eqb "good" status]> g)).

Definition led_events (status : string) : list event :=
  [GpioOutput 27 (String.eqb "good" status);
   GpioOutput 22 (String.eqb "moderate" status);
   GpioOutput 23 (String.eqb "bad" status);
   Stdout (MsgLed status)].

(** What one call of [apply_latest_commands] can do to the globals. *)
Inductive directive :=
| DNone
| DLed (b : bool)
| DAutoFan (b : bool)
| DManualFan (b : bool).

Definition apply_directive (d : directive) (w : World) : World :=
  match d with
  | DNone => w
  | DLed b => set_led_enabled b w
  | DAutoFan b => set_auto_fan_enabled b w
  | DManualFan b =>
      set_gpio_out (<[FAN_PIN := b]> (gpio_out w)) (set_auto_fan_enabled false w)
  end.

(** A trace without telemetry and without indicator calls. *)
Definition quiet (t : list event) : Prop :=
  posts t = [] /\ led_calls t = [] /\ forall st, posts_for st t = [].

(** The value step 3 sends for a metric, if any. *)
Definition changed_float (last reading : option float) : option float :=
  match reading with
  | Some x => if float_ne last x then Some x else None
  | None => None
  end.

Definition changed_int (last reading : option Z) : option Z :=
  match reading with
  | Some x => if int_ne last x then Some x else None
  | None => None
  end.

Definition post_events (api : string -> http_outcome) (sensor_type : string)
    (value : option pyval) : list event :=
  match value with
  | Some v =>
      [HttpPost BACKEND_API_URL sensor_type v;
       Stdout (send_message api sensor_type v)]
  | None => []
  end.

Definition fan_target (temp : option float) (pm2_5 : option Z) : bool :=
  match temp with
  | Some t => PrimFloat.leb AUTO_FAN_TEMP_THRESHOLD t
  | None => false
  end
  || match pm2_5 with
     | Some p => AUTO_FAN_PM25_THRESHOLD <=? p
     | None => false
     end.

Definition fan_events (auto : bool) (target : bool) : list event :=
  if auto then [GpioOutput FAN_PIN target; Stdout (MsgFan target)] else [].

Definition indicator (led : bool) (gas : Z) (pm2_5 : option Z) : string :=
  if led then
    match pm2_5 with
    | None => "off"
    | Some p =>
        if (gas =? 0) && (p <? 35) then "good"
        else if (gas =? 0) || (p <? 75) then "moderate"
        else "bad"
    end
  else "off".

(** Globals and pins after steps 2 to 5, started in [w1]. *)
Definition cycle_world (temp humid : option float) (pm2_5 : option Z)
    (gas : Z) (w1 : World) : World :=
  mkWorld
    (from_option Some (last_sent_temp w1)
       (changed_float (last_sent_temp w1) temp))
    (from_option Some (last_sent_humid w1)
       (changed_float (last_sent_humid w1) humid))
    (from_option Some (last_sent_pm2_5 w1)
       (changed_int (last_sent_pm2_5 w1) pm2_5))
    (auto_fan_enabled w1) (led_enabled w1)
    (led_levels (indicator (led_enabled w1) gas pm2_5)
       (if auto_fan_enabled w1
        then <[FAN_PIN := fan_target temp pm2_5]> (gpio_out w1)
        else gpio_out w1)).

(** Output of steps 2 to 5, started in [w1]. *)
Definition cycle_events (api : string -> http_outcome)
    (temp humid : option float) (pm2_5 : option Z) (gas : Z) (w1 : World)
  : list event :=
  post_events api "temperature"
    (PyFloat <$> changed_float (last_sent_temp w1) temp) ++
  post_events api "humidity"
    (PyFloat <$> changed_float (last_sent_humid w1) humid) ++
  post_events api "pm25"
    (PyInt <$> changed_int (last_sent_pm2_5 w1) pm2_5) ++
  fan_events (auto_fan_enabled w1) (fan_target temp pm2_5) ++
  led_events (indicator (led_enabled w1) gas pm2_5) ++
  [Stdout (MsgStatus temp humid pm2_5 (auto_fan_enabled w1) (led_enabled w1));
   Sleep 5].

(** ** Sample cycles *)

(** The pins after [setup_gpio], with the globals at their defaults. *)
Definition power_on : World := run_world setup_gpio (initial_world ∅).

(** A 32-byte PMS7003 frame carrying the concentration bytes [hi lo]. *)
Definition pms_frame (hi lo : Byte.byte) : list Byte.byte :=
  [Byte.x42; Byte.x4d] ++ repeat Byte.x00 10 ++ [hi; lo] ++
  repeat Byte.x00 18.

Definition no_commands : http_outcome :=
  Responded (mkResponse 200 (Ret (JList []))).

Definition created : http_outcome :=
  Responded (mkResponse 201 (Ret JNull)).

(** 31.0 degrees, 40 percent, pm2.5 = 20, gas pin low, no command. *)
Definition env_hot_clean : Env :=
  mkEnv (Some (mkDHT11 (Some 31.0%float) (Some 40.0%float)))
        (Some (SerialBuffer (pms_frame Byte.x00 Byte.x14)))
        (fun _ => false) no_commands (fun _ => created).

(** No thermo-hygrometer, pm2.5 = 80, gas pin high, no command. *)
Definition env_dusty : Env :=
  mkEnv None (Some (SerialBuffer (pms_frame Byte.x00 Byte.x50)))
        (fun _ => true) no_commands (fun _ => created).

(** The user switches the fan off while it is 31.0 degrees. *)
Definition env_manual_off : Env :=
  mkEnv (Some (mkDHT11 (Some 31.0%float) (Some 40.0%float)))
        (Some (SerialBuffer (pms_frame Byte.x00 Byte.x14)))
        (fun _ => false)
        (Responded (mkResponse 200 (Ret (JList
           [JDict [("target", JStr "fan"); ("action", JStr "off");
                   ("source", JStr "user")];
            JDict [("target", JStr "led"); ("action", JStr "off")]]))))
        (fun _ => created).

(** 25.0 degrees, 40 percent, no particulate sensor, backend unreachable. *)
Definition env_backend_down : Env :=
  mkEnv (Some (mkDHT11 (Some 25.0%float) (Some 40.0%float)))
        None (fun _ => false) no_commands (fun _ => ConnectionFailed).

(** ** Further summaries and samples *)

(** The directive [apply_latest_commands] takes from a fetch outcome. *)
Definition fetched_directive (api : http_outcome) : directive :=
  match api with
  | ConnectionFailed => DNone
  | Responded r =>
      if negb (status_code r =? 200) then DNone
      else
        match body r with
        | Raise _ => DNone
        | Ret commands =>
            if negb (truthy commands) then DNone
            else
              match getitem0 commands with
              | Ret (JDict items) =>
                  let target := default JNull (assoc "target" items) in
                  let action := default JNull (assoc "action" items) in
                  if eq_str target "led" then DLed (eq_str action "on")
                  else if eq_str target "autoFan"
                  then DAutoFan (eq_str action "enable")
                  else if eq_str target "fan" then
                    if eq_str (default JNull (assoc "source" items)) "user"
                    then DManualFan (eq_str action "on")
                    else DNone
                  else DNone
              | _ => DNone
              end
        end
  end.

(** The directive one fetched object stands for, by the rules of
    [apply_latest_commands]: "led" sets the indicator switch to
    (action == "on"), "autoFan" sets the auto-fan switch to
    (action == "enable"), "fan" from source "user" is a manual fan command
    with level (action == "on"); anything else is no directive. *)
Definition directive_of (c : json) : directive :=
  match c with
  | JDict items =>
      let target := default JNull (assoc "target" items) in
      let action := default JNull (assoc "action" items) in
      if eq_str target "led" then DLed (eq_str action "on")
      else if eq_str target "autoFan" then DAutoFan (eq_str action "enable")
      else if eq_str target "fan" then
        if eq_str (default JNull (assoc "source" items)) "user"
        then DManualFan (eq_str action "on")
        else DNone
      else DNone
  | _ => DNone
  end.

(** The URLs fetched, and the sleeps taken. *)
Definition http_get (e : event) : option string :=
  match e with
  | HttpGet url => Some url
  | _ => None
  end.

Definition gets (tr : list event) : list string := omap http_get tr.

Definition sleep (e : event) : option Z :=
  match e with
  | Sleep seconds => Some seconds
  | _ => None
  end.

Definition sleeps (tr : list event) : list Z := omap sleep tr.

(** The level pins show [level] and nothing else. *)
Definition leds_show (level : string) (g : gmap Z bool) : Prop :=
  g !! 27 = Some (String.eqb "good" level) /\
  g !! 22 = Some (String.eqb "moderate" level) /\
  g !! 23 = Some (String.eqb "bad" level).

(** A fetch that brings no directive: it fails, or the list is empty. *)
Definition brings_nothing (api : http_outcome) : Prop :=
  fetch_failure api \/ api = no_commands.

(** The newest command switches the indicator off. *)
Definition env_led_off : Env :=
  mkEnv (Some (mkDHT11 (Some 31.0%float) (Some 40.0%float)))
        (Some (SerialBuffer (pms_frame Byte.x00 Byte.x14)))
        (fun _ => false)
        (Responded (mkResponse 200 (Ret (JList
           [JDict [("target", JStr "led"); ("action", JStr "off")]]))))
        (fun _ => created).

(** An [autoFan] command whose action is "on", not "enable". *)
Definition env_auto_fan_on : Env :=
  mkEnv (Some (mkDHT11 (Some 31.0%float) (Some 40.0%float)))
        (Some (SerialBuffer (pms_frame Byte.x00 Byte.x14)))
        (fun _ => false)
        (Responded (mkResponse 200 (Ret (JList
           [JDict [("target", JStr "autoFan"); ("action", JStr "on")]]))))
        (fun _ => created).

(** A [fan] command that does not come from the user. *)
Definition env_fan_not_user : Env :=
  mkEnv (Some (mkDHT11 (Some 31.0%float) (Some 40.0%float)))
        (Some (SerialBuffer (pms_frame Byte.x00 Byte.x14)))
        (fun _ => false)
        (Responded (mkResponse 200 (Ret (JList
           [JDict [("target", JStr "fan"); ("action", JStr "off");
                   ("source", JStr "schedule")]]))))
        (fun _ => created).


(** The globals after a manual fan-off. *)
Definition manual_off_world : World :=
  run_world (main_loop_body env_manual_off) power_on.

(** * Symbolic execution *)

Ltac mstep :=
  cbv [mbind M_bind mret M_ret emit print raise lift modify read_global];
  cbn.

Ltac world_simpl :=
  cbn [from_option set_last_sent_temp set_last_sent_humid set_last_sent_pm2_5
       set_auto_fan_enabled set_led_enabled set_gpio_out
       last_sent_temp last_sent_humid last_sent_pm2_5 auto_fan_enabled
       led_enabled gpio_out] in *.

Ltac apply_done d :=
  exists d; eexists; repeat split; reflexivity.

Section Monad.
Context {A B : Type}.

Lemma run_bind (m : M A) (f : A -> M B) w a w1 t1 r w2 t2 :
  m w = (Ret a, w1, t1) ->
  f a w1 = (r, w2, t2) ->
  (m ≫= f) w = (r, w2, t1 ++ t2).
Proof.
  intros Hm Hf. unfold mbind, M_bind. rewrite Hm, Hf. reflexivity.
Qed.

Lemma run_read_global (field : World -> A) (f : A -> M B) w :
  (read_global field ≫= f) w = f (field w) w.
Proof.
  unfold mbind, M_bind, read_global. destruct (f (field w) w) as [[r w2] t2].
  reflexivity.
Qed.
End Monad.

(** ** Leaf functions *)

Lemma send_to_backend_run api st v w :
  send_to_backend api st v w =
  (Ret tt, w, [HttpPost BACKEND_API_URL st v; Stdout (send_message api st v)]).
Proof.
  unfold send_to_backend, send_message, try_except, requests_post.
  destruct (api st) as [|r]; mstep.
  - reflexivity.
  - destruct (status_code r =? 201); reflexivity.
Qed.

Lemma control_fan_run b w :
  control_fan b w =
  (Ret tt, set_gpio_out (<[FAN_PIN := b]> (gpio_out w)) w,
   [GpioOutput FAN_PIN b; Stdout (MsgFan b)]).
Proof. reflexivity. Qed.

Lemma set_led_run status w :
  set_led status w =
  (Ret tt, set_gpio_out (led_levels status (gpio_out w)) w, led_events status).
Proof.
  unfold set_led. destruct (String.eqb status "off") eqn:E.
  - apply String.eqb_eq in E. subst status. reflexivity.
  - reflexivity.
Qed.

(** ** Command application *)

Lemma apply_latest_commands_cases api w :
  exists d t,
    apply_latest_commands api w = (Ret tt, apply_directive d w, t) /\
    fan_writes t = match d with DManualFan b => [b] | _ => [] end /\
    quiet t.
Proof.
  unfold apply_latest_commands, try_except, requests_get, quiet.
  destruct api as [|[code b]].
  { apply_done DNone. }
  mstep. destruct (code =? 200); mstep.
  2:{ apply_done DNone. }
  destruct b as [commands|e]; mstep.
  2:{ destruct e; apply_done DNone. }
  destruct (truthy commands); mstep.
  2:{ apply_done DNone. }
  destruct (getitem0 commands) as [c|e]; mstep.
  2:{ destruct e; apply_done DNone. }
  destruct c as [| | | | |l|items]; mstep; try apply_done DNone.
  destruct (eq_str (default JNull (assoc "target" items)) "led"); mstep.
  { eexists (DLed _), _. repeat split; reflexivity. }
  destruct (eq_str (default JNull (assoc "target" items)) "autoFan"); mstep.
  { eexists (DAutoFan _), _. repeat split; reflexivity. }
  destruct (eq_str (default JNull (assoc "target" items)) "fan"); mstep.
  2:{ apply_done DNone. }
  destruct (eq_str (default JNull (assoc "source" items)) "user"); mstep.
  2:{ apply_done DNone. }
  eexists (DManualFan _), _. repeat split; reflexivity.
Qed.

Lemma apply_latest_commands_returns api w :
  apply_latest_commands api w =
  (Ret tt, run_world (apply_latest_commands api) w,
   run_trace (apply_latest_commands api) w).
Proof.
  destruct (apply_latest_commands_cases api w) as (d & t & H & _).
  unfold run_world, run_trace. rewrite H. reflexivity.
Qed.

(** ** Steps 3 and 4 of an iteration *)

Lemma report_temp_run api last temp w :
  match temp with
  | Some t =>
      if float_ne last t then
        send_to_backend api "temperature" (PyFloat t) ;;
        modify (set_last_sent_temp (Some t))
      else mret tt
  | None => mret tt
  end w =
  (Ret tt,
   from_option (fun t => set_last_sent_temp (Some t) w) w
     (changed_float last temp),
   post_events api "temperature" (PyFloat <$> changed_float last temp)).
Proof.
  unfold changed_float. destruct temp as [t|]; [|reflexivity].
  destruct (float_ne last t); [|reflexivity].
  unfold mbind, M_bind. rewrite send_to_backend_run. reflexivity.
Qed.

Lemma report_humid_run api last humid w :
  match humid with
  | Some h =>
      if float_ne last h then
        send_to_backend api "humidity" (PyFloat h) ;;
        modify (set_last_sent_humid (Some h))
      else mret tt
  | None => mret tt
  end w =
  (Ret tt,
   from_option (fun h => set_last_sent_humid (Some h) w) w
     (changed_float last humid),
   post_events api "humidity" (PyFloat <$> changed_float last humid)).
Proof.
  unfold changed_float. destruct humid as [h|]; [|reflexivity].
  destruct (float_ne last h); [|reflexivity].
  unfold mbind, M_bind. rewrite send_to_backend_run. reflexivity.
Qed.

Lemma report_pm2_5_run api last pm2_5 w :
  match pm2_5 with
  | Some p =>
      if int_ne last p then
        send_to_backend api "pm25" (PyInt p) ;;
        modify (set_last_sent_pm2_5 (Some p))
      else mret tt
  | None => mret tt
  end w =
  (Ret tt,
   from_option (fun p => set_last_sent_pm2_5 (Some p) w) w
     (changed_int last pm2_5),
   post_events api "pm25" (PyInt <$> changed_int last pm2_5)).
Proof.
  unfold changed_int. destruct pm2_5 as [p|]; [|reflexivity].
  destruct (int_ne last p); [|reflexivity].
  unfold mbind, M_bind. rewrite send_to_backend_run. reflexivity.
Qed.

Lemma auto_fan_run (auto : bool) temp pm2_5 w :
  (if auto then control_fan (fan_target temp pm2_5) else mret tt) w =
  (Ret tt,
   (if auto
    then set_gpio_out (<[FAN_PIN := fan_target temp pm2_5]> (gpio_out w)) w
    else w),
   fan_events auto (fan_target temp pm2_5)).
Proof. destruct auto; reflexivity. Qed.

Lemma indicator_run (led : bool) gas pm2_5 w :
  (if led then
     match pm2_5 with
     | None => set_led "off"
     | Some p =>
         if (gas =? 0) && (p <? 35) then set_led "good"
         else if (gas =? 0) || (p <? 75) then set_led "moderate"
         else set_led "bad"
     end
   else set_led "off") w =
  (Ret tt,
   set_gpio_out (led_levels (indicator led gas pm2_5) (gpio_out w)) w,
   led_events (indicator led gas pm2_5)).
Proof.
  unfold indicator. destruct led; [|apply set_led_run].
  destruct pm2_5 as [p|]; [|apply set_led_run].
  destruct ((gas =? 0) && (p <? 35)); [apply set_led_run|].
  destruct ((gas =? 0) || (p <? 75)); apply set_led_run.
Qed.

(** ** One iteration *)

Lemma main_loop_body_run env w :
  let api := apply_latest_commands (control_api env) in
  main_loop_body env w =
  (Ret tt,
   cycle_world (read_dht11 (dht_device env)).1 (read_dht11 (dht_device env)).2
     (read_pms7003 (ser env)).1 (read_mq135 (gpio_in env)) (run_world api w),
   run_trace api w ++
   cycle_events (backend_api env)
     (read_dht11 (dht_device env)).1 (read_dht11 (dht_device env)).2
     (read_pms7003 (ser env)).1 (read_mq135 (gpio_in env)) (run_world api w)).
Proof.
  intros api. unfold main_loop_body.
  destruct (read_dht11 (dht_device env)) as [temp humid].
  generalize (read_pms7003 (ser env)).1 (read_mq135 (gpio_in env)).
  intros pm2_5 gas. cbn [fst snd].
  generalize (apply_latest_commands_returns (control_api env) w).
  fold api. generalize (run_world api w) (run_trace api w).
  intros w1 t1 Hap.
  etransitivity.
  { eapply run_bind; [exact Hap|]. rewrite run_read_global.
    eapply run_bind; [apply report_temp_run|]. rewrite run_read_global.
    eapply run_bind; [apply report_humid_run|]. rewrite run_read_global.
    eapply run_bind; [apply report_pm2_5_run|]. rewrite run_read_global.
    eapply run_bind; [apply auto_fan_run|]. rewrite run_read_global.
    eapply run_bind; [apply indicator_run|]. rewrite !run_read_global.
    reflexivity. }
  unfold cycle_world, cycle_events.
  clear Hap. destruct w1 as [lt lh lp auto led g].
  cbn [last_sent_temp last_sent_humid last_sent_pm2_5 auto_fan_enabled
       led_enabled gpio_out].
  destruct (changed_float lt temp); world_simpl;
    destruct (changed_float lh humid); world_simpl;
    destruct (changed_int lp pm2_5); world_simpl;
    destruct auto; reflexivity.
Qed.

(** ** What an iteration's own events contain *)

Lemma fan_writes_cycle_events api temp humid pm2_5 gas w1 :
  fan_writes (cycle_events api temp humid pm2_5 gas w1) =
  if auto_fan_enabled w1 then [fan_target temp pm2_5] else [].
Proof.
  unfold cycle_events, fan_writes.
  destruct (changed_float (last_sent_temp w1) temp),
           (changed_float (last_sent_humid w1) humid),
           (changed_int (last_sent_pm2_5 w1) pm2_5),
           (auto_fan_enabled w1); reflexivity.
Qed.

Lemma led_calls_cycle_events api temp humid pm2_5 gas w1 :
  led_calls (cycle_events api temp humid pm2_5 gas w1) =
  [indicator (led_enabled w1) gas pm2_5].
Proof.
  unfold cycle_events, led_calls.
  destruct (changed_float (last_sent_temp w1) temp),
           (changed_float (last_sent_humid w1) humid),
           (changed_int (last_sent_pm2_5 w1) pm2_5),
           (auto_fan_enabled w1);
    cbn [post_events fmap option_fmap option_map fan_events led_events app];
    unfold send_message; repeat case_match; reflexivity.
Qed.

Lemma posts_cycle_events api temp humid pm2_5 gas w1 :
  posts (cycle_events api temp humid pm2_5 gas w1) =
  option_list (pair "temperature" <$>
                 (PyFloat <$> changed_float (last_sent_temp w1) temp)) ++
  option_list (pair "humidity" <$>
                 (PyFloat <$> changed_float (last_sent_humid w1) humid)) ++
  option_list (pair "pm25" <$>
                 (PyInt <$> changed_int (last_sent_pm2_5 w1) pm2_5)).
Proof.
  unfold cycle_events, posts.
  destruct (changed_float (last_sent_temp w1) temp),
           (changed_float (last_sent_humid w1) humid),
           (changed_int (last_sent_pm2_5 w1) pm2_5),
           (auto_fan_enabled w1); reflexivity.
Qed.

Lemma posts_for_cycle_events st api temp humid pm2_5 gas w1 :
  posts_for st (cycle_events api temp humid pm2_5 gas w1) =
  (if String.eqb "temperature" st
   then option_list (PyFloat <$> changed_float (last_sent_temp w1) temp)
   else []) ++
  (if String.eqb "humidity" st
   then option_list (PyFloat <$> changed_float (last_sent_humid w1) humid)
   else []) ++
  (if String.eqb "pm25" st
   then option_list (PyInt <$> changed_int (last_sent_pm2_5 w1) pm2_5)
   else []).
Proof.
  unfold cycle_events, posts_for.
  destruct (changed_float (last_sent_temp w1) temp),
           (changed_float (last_sent_humid w1) humid),
           (changed_int (last_sent_pm2_5 w1) pm2_5),
           (auto_fan_enabled w1);
    cbn [post_events fmap option_fmap option_map omap list_omap app
         led_events fan_events option_list];
    destruct (String.eqb "temperature" st), (String.eqb "humidity" st),
             (String.eqb "pm25" st); reflexivity.
Qed.

(** The indicator pins are not the fan pin. *)
Lemma led_levels_fan_pin status g :
  led_levels status g !! FAN_PIN = g !! FAN_PIN.
Proof.
  unfold led_levels, FAN_PIN. rewrite !lookup_insert_ne by lia. reflexivity.
Qed.

(** Projections of the world an iteration leaves. *)
Lemma main_loop_body_world env w :
  run_world (main_loop_body env) w =
  cycle_world (read_dht11 (dht_device env)).1 (read_dht11 (dht_device env)).2
    (read_pms7003 (ser env)).1 (read_mq135 (gpio_in env))
    (run_world (apply_latest_commands (control_api env)) w).
Proof. unfold run_world at 1. rewrite main_loop_body_run. reflexivity. Qed.

Lemma main_loop_body_trace env w :
  run_trace (main_loop_body env) w =
  run_trace (apply_latest_commands (control_api env)) w ++
  cycle_events (backend_api env)
    (read_dht11 (dht_device env)).1 (read_dht11 (dht_device env)).2
    (read_pms7003 (ser env)).1 (read_mq135 (gpio_in env))
    (run_world (apply_latest_commands (control_api env)) w).
Proof. unfold run_trace at 1. rewrite main_loop_body_run. reflexivity. Qed.

(** [apply_latest_commands] leaves the last-sent values alone. *)
Lemma apply_latest_commands_last_sent api w :
  let w1 := run_world (apply_latest_commands api) w in
  last_sent_temp w1 = last_sent_temp w /\
  last_sent_humid w1 = last_sent_humid w /\
  last_sent_pm2_5 w1 = last_sent_pm2_5 w.
Proof.
  destruct (apply_latest_commands_cases api w) as (d & t & H & _).
  unfold run_world. rewrite H. destruct d; repeat split; reflexivity.
Qed.

Lemma apply_latest_commands_quiet api w :
  quiet (run_trace (apply_latest_commands api) w).
Proof.
  destruct (apply_latest_commands_cases api w) as (d & t & H & _ & Hq).
  unfold run_trace. rewrite H. exact Hq.
Qed.

(** The bytes of a frame are told apart by their values. *)
Lemma byte_value_inj (b b' : Byte.byte) :
  Z.of_N (Byte.to_N b) = Z.of_N (Byte.to_N b') -> b = b'.
Proof.
  intros H. apply N2Z.inj in H.
  pose proof (Byte.of_to_N b) as Hb. rewrite H, Byte.of_to_N in Hb.
  congruence.
Qed.

Lemma byte_value_range (b : Byte.byte) : 0 <= Z.of_N (Byte.to_N b) <= 255.
Proof. pose proof (Byte.to_N_bounded b). lia. Qed.

(** * The particulate sensor frame *)

(** C8. [read_pms7003] returns a value exactly when the port holds at least
    32 buffered bytes whose first two are 0x42 0x4d, and the value is then
    the big-endian unsigned 16-bit integer made of bytes 12 and 13; with no
    port, a failing port, a short buffer or another marker the result is
    absent. *)
Theorem read_pms7003_frame (ser : option Serial) :
  (forall v,
     (read_pms7003 ser).1 = Some v <->
     exists rx hi lo,
       ser = Some (SerialBuffer rx) /\
       (32 <= length rx)%nat /\
       nth_error rx 0 = Some Byte.x42 /\
       nth_error rx 1 = Some Byte.x4d /\
       nth_error rx 12 = Some hi /\
       nth_error rx 13 = Some lo /\
       v = 256 * Z.of_N (Byte.to_N hi) + Z.of_N (Byte.to_N lo)) /\
  (forall v, (read_pms7003 ser).1 = Some v -> 0 <= v < 65536).
Proof.
  assert (Hiff : forall v,
     (read_pms7003 ser).1 = Some v <->
     exists rx hi lo,
       ser = Some (SerialBuffer rx) /\
       (32 <= length rx)%nat /\
       nth_error rx 0 = Some Byte.x42 /\
       nth_error rx 1 = Some Byte.x4d /\
       nth_error rx 12 = Some hi /\
       nth_error rx 13 = Some lo /\
       v = 256 * Z.of_N (Byte.to_N hi) + Z.of_N (Byte.to_N lo)).
  { intros v. split.
    - destruct ser as [[|rx]|]; cbn [read_pms7003 fst]; try discriminate.
      destruct (32 <=? Z.of_nat (length rx)) eqn:Hlen;
        cbn [fst]; [|discriminate].
      apply Z.leb_le in Hlen.
      do 14 (destruct rx as [|? rx]; [cbn [length] in Hlen; lia|]).
      cbn [firstn byte_at nth_error slice skipn Nat.sub from_bytes_big
           fold_left].
      destruct (Z.of_N (Byte.to_N b) =? 66) eqn:H0; cbn [andb fst];
        [|discriminate].
      destruct (Z.of_N (Byte.to_N b0) =? 77) eqn:H1; cbn [fst];
        [|discriminate].
      apply Z.eqb_eq in H0, H1. intros [= <-].
      eexists _, b11, b12. repeat split.
      + lia.
      + cbn. f_equal. apply byte_value_inj. rewrite H0. reflexivity.
      + cbn. f_equal. apply byte_value_inj. rewrite H1. reflexivity.
      + lia.
    - intros (rx & hi & lo & -> & Hlen & H0 & H1 & H12 & H13 & ->).
      cbn [read_pms7003].
      replace (32 <=? Z.of_nat (length rx)) with true
        by (symmetry; apply Z.leb_le; lia).
      do 14 (destruct rx as [|? rx]; [cbn [length] in Hlen; lia|]).
      cbn in H0, H1, H12, H13.
      injection H0 as ->. injection H1 as ->.
      injection H12 as ->. injection H13 as ->.
      cbn [firstn byte_at nth_error slice skipn Nat.sub from_bytes_big
           fold_left].
      cbn. rewrite firstn_O. cbn [fold_left]. f_equal. lia. }
  split; [exact Hiff|].
  intros v Hv. apply Hiff in Hv.
  destruct Hv as (rx & hi & lo & _ & _ & _ & _ & _ & _ & ->).
  pose proof (byte_value_range hi). pose proof (byte_value_range lo). lia.
Qed.

(** * The indicator driver *)

(** C9. After [set_led status] every level pin holds high exactly when it
    is the pin of [status]: with 'off' all level pins are low, and no two
    level pins are high together. *)
Theorem set_led_one_hot (status : string) (w : World) :
  let g := gpio_out (run_world (set_led status) w) in
  run_result (set_led status) w = Ret tt /\
  (forall name pin,
     In (name, pin) LED_PINS -> pin <> -1 ->
     g !! pin = Some (String.eqb name status)) /\
  (status = "off" ->
   forall name pin, In (name, pin) LED_PINS -> pin <> -1 ->
                    g !! pin = Some false) /\
  (forall n1 p1 n2 p2,
     In (n1, p1) LED_PINS -> In (n2, p2) LED_PINS ->
     p1 <> -1 -> p2 <> -1 ->
     g !! p1 = Some true -> g !! p2 = Some true -> p1 = p2).
Proof.
  intros g.
  assert (Hpins : forall name pin,
            In (name, pin) LED_PINS -> pin <> -1 ->
            g !! pin = Some (String.eqb name status)).
  { intros name pin Hin Hpin. subst g. unfold run_world.
    rewrite set_led_run. cbn [fst snd gpio_out set_gpio_out]. unfold led_levels.
    cbn [LED_PINS In] in Hin.
    destruct Hin as [[= <- <-]|[[= <- <-]|[[= <- <-]|[[= <- <-]|[]]]]].
    - rewrite !lookup_insert_ne by lia. apply lookup_insert_eq.
    - rewrite lookup_insert_ne by lia. apply lookup_insert_eq.
    - apply lookup_insert_eq.
    - contradiction. }
  split; [|split; [exact Hpins|split]].
  - unfold run_result. rewrite set_led_run. reflexivity.
  - intros -> name pin Hin Hpin. rewrite (Hpins name pin Hin Hpin).
    cbn [LED_PINS In] in Hin.
    destruct Hin as [[= <- <-]|[[= <- <-]|[[= <- <-]|[[= <- <-]|[]]]]];
      reflexivity || contradiction.
  - intros n1 p1 n2 p2 H1 H2 Hp1 Hp2 Hg1 Hg2.
    rewrite (Hpins n1 p1 H1 Hp1) in Hg1. rewrite (Hpins n2 p2 H2 Hp2) in Hg2.
    injection Hg1 as Hg1. injection Hg2 as Hg2.
    apply String.eqb_eq in Hg1, Hg2.
    cbn [LED_PINS In] in H1, H2.
    destruct H1 as [[= <- <-]|[[= <- <-]|[[= <- <-]|[[= <- <-]|[]]]]];
    destruct H2 as [[= <- <-]|[[= <- <-]|[[= <- <-]|[[= <- <-]|[]]]]];
      reflexivity || congruence.
Qed.

(** * Command application in closed form *)

Lemma eq_str_default o s :
  eq_str (default JNull o) s = true <-> o = Some (JStr s).
Proof.
  destruct o as [[| | | |s'| |]|]; cbn [default from_option id eq_str];
    try (split; [discriminate|congruence]).
  rewrite String.eqb_eq. split; congruence.
Qed.

Ltac apply_leaf :=
  eexists; split; [reflexivity|];
  repeat split; try reflexivity; intros pin;
  first [reflexivity
        | destruct pin as [|q|q]; try reflexivity;
          cbn; destruct (Pos.eqb 18 q); reflexivity].

Lemma apply_latest_commands_closed api w :
  exists t,
    apply_latest_commands api w =
    (Ret tt, apply_directive (fetched_directive api) w,
     HttpGet CONTROL_API_URL :: t) /\
    gets t = [] /\ posts t = [] /\ sleeps t = [] /\ led_calls t = [] /\
    forall pin,
      omap (pin_write pin) t =
      match fetched_directive api with
      | DManualFan b => if FAN_PIN =? pin then [b] else []
      | _ => []
      end.
Proof.
  unfold apply_latest_commands, fetched_directive, try_except, requests_get.
  destruct api as [|[code b]].
  { apply_leaf. }
  mstep. destruct (code =? 200); mstep.
  2:{ apply_leaf. }
  destruct b as [commands|e]; mstep.
  2:{ destruct e; apply_leaf. }
  destruct (truthy commands); mstep.
  2:{ apply_leaf. }
  destruct (getitem0 commands) as [c|e]; mstep.
  2:{ destruct e; apply_leaf. }
  destruct c as [| | | | |l|items]; mstep; try apply_leaf.
  destruct (eq_str (default JNull (assoc "target" items)) "led"); mstep.
  { apply_leaf. }
  destruct (eq_str (default JNull (assoc "target" items)) "autoFan"); mstep.
  { apply_leaf. }
  destruct (eq_str (default JNull (assoc "target" items)) "fan"); mstep.
  2:{ apply_leaf. }
  destruct (eq_str (default JNull (assoc "source" items)) "user"); mstep.
  2:{ apply_leaf. }
  apply_leaf.
Qed.

Lemma apply_latest_commands_world api w :
  run_world (apply_latest_commands api) w =
  apply_directive (fetched_directive api) w.
Proof.
  destruct (apply_latest_commands_closed api w) as (t & H & _).
  unfold run_world. rewrite H. reflexivity.
Qed.

Lemma fetch_failure_directive api :
  fetch_failure api -> fetched_directive api = DNone.
Proof.
  intros [|code b Hcode|e|v Htruthy Hshape]; cbn.
  - reflexivity.
  - apply Z.eqb_neq in Hcode. rewrite Hcode. reflexivity.
  - reflexivity.
  - rewrite Htruthy. cbn.
    destruct v as [| | | |s|l|items]; try reflexivity.
    + destruct s; reflexivity.
    + destruct l as [|c l]; [reflexivity|].
      destruct c; try reflexivity. exfalso. eapply Hshape. reflexivity.
Qed.

Lemma brings_nothing_directive api :
  brings_nothing api -> fetched_directive api = DNone.
Proof.
  intros [H| ->]; [apply fetch_failure_directive; exact H|reflexivity].
Qed.

(** * Command application *)

(** C5. Of a non-empty fetched sequence exactly the first directive is
    interpreted.  With status 200 the call returns normally, the globals
    and pins it leaves are those of interpreting the first element alone
    ([directive_of] the head, applied to the state before), and the fan pin
    is written exactly when that element is a manual fan command.  The
    elements after the first change nothing: result, globals, pins and
    output are those of the one-element sequence, for [apply_latest_commands]
    and for the whole iteration. *)
Theorem only_newest_directive_applied code (c : json) (rest : list json)
    (w : World) dht port gin backend :
  let fetched := Responded (mkResponse 200 (Ret (JList (c :: rest)))) in
  run_result (apply_latest_commands fetched) w = Ret tt /\
  run_world (apply_latest_commands fetched) w =
    apply_directive (directive_of c) w /\
  fan_writes (run_trace (apply_latest_commands fetched) w) =
    match directive_of c with
    | DManualFan on => [on]
    | _ => []
    end /\
  apply_latest_commands
    (Responded (mkResponse code (Ret (JList (c :: rest))))) w =
  apply_latest_commands
    (Responded (mkResponse code (Ret (JList [c])))) w /\
  main_loop_body
    (mkEnv dht port gin
       (Responded (mkResponse code (Ret (JList (c :: rest))))) backend) w =
  main_loop_body
    (mkEnv dht port gin
       (Responded (mkResponse code (Ret (JList [c])))) backend) w.
Proof.
  intros fetched.
  assert (Hd : fetched_directive fetched = directive_of c)
    by (destruct c; reflexivity).
  destruct (apply_latest_commands_closed fetched w)
    as (t & Hrun & _ & _ & _ & _ & Hpins).
  assert (H : apply_latest_commands
                (Responded (mkResponse code (Ret (JList (c :: rest))))) w =
              apply_latest_commands
                (Responded (mkResponse code (Ret (JList [c])))) w)
    by reflexivity.
  unfold run_result, run_world, run_trace. rewrite Hrun. cbn [fst snd].
  split; [reflexivity|]. split; [rewrite Hd; reflexivity|].
  split.
  - unfold fan_writes. cbn [omap list_omap pin_write]. rewrite Hpins, Hd.
    destruct (directive_of c); reflexivity.
  - split; [exact H|].
    rewrite !main_loop_body_run.
    cbn [control_api dht_device ser gpio_in backend_api].
    unfold run_world, run_trace. rewrite H. reflexivity.
Qed.

(** C6. When the command fetch fails (transport error, status other than
    200, or a body that does not parse or is not a sequence of objects),
    [apply_latest_commands] returns normally, leaves every global and pin as
    it was, writes to no pin, and ends like a fetch that brought nothing. *)
Theorem apply_latest_commands_fetch_failure (api : http_outcome) (w : World) :
  fetch_failure api ->
  run_result (apply_latest_commands api) w = Ret tt /\
  run_world (apply_latest_commands api) w = w /\
  (forall pin,
     omap (pin_write pin) (run_trace (apply_latest_commands api) w) = []) /\
  run_world (apply_latest_commands api) w =
  run_world (apply_latest_commands no_commands) w.
Proof.
  intros Hfail.
  enough (exists t, apply_latest_commands api w = (Ret tt, w, t) /\
                    forall pin, omap (pin_write pin) t = []) as (t & H & Ht).
  { unfold run_result, run_world, run_trace. rewrite H. auto. }
  unfold apply_latest_commands, try_except, requests_get.
  destruct Hfail as [|code b Hcode|e|v Htruthy Hshape].
  - eexists. split; [reflexivity|]. reflexivity.
  - mstep. apply Z.eqb_neq in Hcode. rewrite Hcode.
    eexists. split; [reflexivity|]. reflexivity.
  - mstep. destruct e; eexists; (split; [reflexivity|]); reflexivity.
  - mstep. rewrite Htruthy. mstep.
    destruct v as [| | | |s|l|items]; try discriminate Htruthy;
      try (eexists; (split; [reflexivity|]); reflexivity).
    + destruct s; [discriminate Htruthy|].
      eexists; (split; [reflexivity|]); reflexivity.
    + destruct l as [|c l]; [discriminate Htruthy|].
      destruct c; try (eexists; (split; [reflexivity|]); reflexivity).
      exfalso. eapply Hshape. reflexivity.
Qed.

Lemma apply_latest_commands_fetch_failure_witness :
  fetch_failure ConnectionFailed /\
  run_world (apply_latest_commands ConnectionFailed) power_on = power_on.
Proof.
  split; [constructor|].
  apply (apply_latest_commands_fetch_failure ConnectionFailed power_on).
  constructor.
Defined.

(** The directive taken from a fetched [fan] command of the user. *)
Lemma apply_latest_commands_manual_fan items rest w :
  assoc "target" items = Some (JStr "fan") ->
  assoc "source" items = Some (JStr "user") ->
  let on := eq_str (default JNull (assoc "action" items)) "on" in
  apply_latest_commands
    (Responded (mkResponse 200 (Ret (JList (JDict items :: rest))))) w =
  (Ret tt, apply_directive (DManualFan on) w,
   [HttpGet CONTROL_API_URL; Stdout (MsgCommand (JDict items));
    GpioOutput FAN_PIN on; Stdout (MsgFan on); Stdout MsgManualFan]).
Proof.
  intros Htarget Hsource on.
  unfold apply_latest_commands, try_except, requests_get. mstep.
  rewrite Htarget, Hsource. reflexivity.
Qed.

(** C4. When the newest fetched directive is a [fan] directive of source
    "user", the iteration clears [auto_fan_enabled] and drives the fan pin
    to (action == "on") while applying the command; this is the only write
    to the fan pin in the whole iteration, so the pin ends at that level. *)
Theorem manual_fan_override (env : Env) (w : World) items rest :
  control_api env =
    Responded (mkResponse 200 (Ret (JList (JDict items :: rest)))) ->
  assoc "target" items = Some (JStr "fan") ->
  assoc "source" items = Some (JStr "user") ->
  let on := eq_str (default JNull (assoc "action" items)) "on" in
  let w1 := run_world (apply_latest_commands (control_api env)) w in
  let w' := run_world (main_loop_body env) w in
  (on = true <-> assoc "action" items = Some (JStr "on")) /\
  auto_fan_enabled w1 = false /\
  gpio_out w1 !! FAN_PIN = Some on /\
  fan_writes (run_trace (apply_latest_commands (control_api env)) w) = [on] /\
  auto_fan_enabled w' = false /\
  gpio_out w' !! FAN_PIN = Some on /\
  fan_writes (run_trace (main_loop_body env) w) = [on].
Proof.
  intros Hapi Htarget Hsource on w1 w'.
  pose proof (apply_latest_commands_manual_fan items rest w Htarget Hsource)
    as Hrun.
  cbv zeta in Hrun. fold on in Hrun. rewrite <- Hapi in Hrun.
  assert (Hw1 : w1 = apply_directive (DManualFan on) w).
  { subst w1. unfold run_world. rewrite Hrun. reflexivity. }
  assert (Ht1 : run_trace (apply_latest_commands (control_api env)) w =
                [HttpGet CONTROL_API_URL; Stdout (MsgCommand (JDict items));
                 GpioOutput FAN_PIN on; Stdout (MsgFan on);
                 Stdout MsgManualFan]).
  { unfold run_trace. rewrite Hrun. reflexivity. }
  split; [|split; [|split; [|split; [|split; [|split]]]]].
  - subst on. destruct (assoc "action" items) as [[| | | |s| |]|] eqn:Ha;
      cbn [default eq_str]; try (split; [discriminate|congruence]).
    split.
    + intros H. apply String.eqb_eq in H. congruence.
    + intros [= ->]. reflexivity.
  - rewrite Hw1. reflexivity.
  - rewrite Hw1. cbn [apply_directive gpio_out set_gpio_out].
    apply lookup_insert_eq.
  - rewrite Ht1. reflexivity.
  - subst w'. rewrite main_loop_body_world. fold w1. rewrite Hw1. reflexivity.
  - subst w'. rewrite main_loop_body_world. fold w1. rewrite Hw1.
    cbn [cycle_world gpio_out apply_directive auto_fan_enabled
         set_gpio_out set_auto_fan_enabled].
    rewrite led_levels_fan_pin. apply lookup_insert_eq.
  - rewrite main_loop_body_trace. unfold fan_writes. rewrite omap_app.
    fold (fan_writes (run_trace (apply_latest_commands (control_api env)) w)).
    fold (fan_writes
            (cycle_events (backend_api env)
               (read_dht11 (dht_device env)).1 (read_dht11 (dht_device env)).2
               (read_pms7003 (ser env)).1 (read_mq135 (gpio_in env))
               (run_world (apply_latest_commands (control_api env)) w))).
    rewrite fan_writes_cycle_events. fold w1. rewrite Hw1, Ht1. reflexivity.
Qed.

Lemma manual_fan_override_witness :
  auto_fan_enabled (run_world (main_loop_body env_manual_off) power_on)
    = false /\
  gpio_out (run_world (main_loop_body env_manual_off) power_on) !! FAN_PIN
    = Some false /\
  fan_writes (run_trace (main_loop_body env_manual_off) power_on) = [false].
Proof.
  destruct (manual_fan_override env_manual_off power_on _ _
              eq_refl eq_refl eq_refl) as (_ & _ & _ & _ & H1 & H2 & H3).
  exact (conj H1 (conj H2 H3)).
Defined.

(** * Automatic decisions *)

Lemma posts_for_app st t1 t2 :
  posts_for st (t1 ++ t2) = posts_for st t1 ++ posts_for st t2.
Proof. apply omap_app. Qed.

Lemma fan_writes_app t1 t2 :
  fan_writes (t1 ++ t2) = fan_writes t1 ++ fan_writes t2.
Proof. apply omap_app. Qed.

Lemma led_calls_app t1 t2 :
  led_calls (t1 ++ t2) = led_calls t1 ++ led_calls t2.
Proof. apply omap_app. Qed.

Lemma posts_app t1 t2 : posts (t1 ++ t2) = posts t1 ++ posts t2.
Proof. apply omap_app. Qed.

(** C3. With auto-fan enabled once the commands are applied, the rest of
    the iteration writes the fan pin once, high exactly when the
    temperature is present and at least 30.0 or pm2.5 is present and at
    least 75; with auto-fan disabled it does not write the fan pin, which
    stays as command application left it. *)
Theorem auto_fan_policy (env : Env) (w : World) :
  let api := apply_latest_commands (control_api env) in
  let w1 := run_world api w in
  let w' := run_world (main_loop_body env) w in
  let temp := (read_dht11 (dht_device env)).1 in
  let pm2_5 := (read_pms7003 (ser env)).1 in
  exists t2,
    run_trace (main_loop_body env) w = run_trace api w ++ t2 /\
    auto_fan_enabled w' = auto_fan_enabled w1 /\
    if auto_fan_enabled w1 then
      exists on,
        fan_writes t2 = [on] /\
        gpio_out w' !! FAN_PIN = Some on /\
        (on = true <->
         (exists t, temp = Some t /\ PrimFloat.leb 30.0%float t = true) \/
         (exists p, pm2_5 = Some p /\ 75 <= p))
    else
      fan_writes t2 = [] /\
      gpio_out w' !! FAN_PIN = gpio_out w1 !! FAN_PIN.
Proof.
  intros api w1 w' temp pm2_5.
  eexists. split; [apply main_loop_body_trace|].
  subst w'. rewrite main_loop_body_world. fold api w1 temp pm2_5.
  split; [reflexivity|].
  rewrite fan_writes_cycle_events. fold w1.
  cbn [cycle_world gpio_out]. rewrite led_levels_fan_pin.
  destruct (auto_fan_enabled w1).
  - exists (fan_target temp pm2_5). split; [reflexivity|].
    split; [apply lookup_insert_eq|].
    unfold fan_target, AUTO_FAN_TEMP_THRESHOLD, AUTO_FAN_PM25_THRESHOLD.
    rewrite orb_true_iff. split.
    + intros [H|H].
      * left. destruct temp as [t|]; [eauto|discriminate].
      * right. destruct pm2_5 as [p|]; [|discriminate].
        apply Z.leb_le in H. eauto.
    + intros [(t & -> & H)|(p & -> & H)].
      * left. exact H.
      * right. apply Z.leb_le. exact H.
  - split; reflexivity.
Qed.

(** C2. Each iteration calls the indicator driver once.  With the indicator
    enabled the level is 'off' when pm2.5 is absent, and otherwise 'good'
    iff gas == 0 and pm2.5 < 35, 'bad' iff gas == 1 and pm2.5 >= 75, and
    'moderate' in the remaining cases; with the indicator disabled the level
    is 'off'.  The gas reading is 0 or 1. *)
Theorem indicator_quantization (env : Env) (w : World) :
  let w' := run_world (main_loop_body env) w in
  let gas := read_mq135 (gpio_in env) in
  let pm2_5 := (read_pms7003 (ser env)).1 in
  (gas = 0 \/ gas = 1) /\
  exists level,
    led_calls (run_trace (main_loop_body env) w) = [level] /\
    if led_enabled w' then
      match pm2_5 with
      | None => level = "off"
      | Some p =>
          (level = "good" <-> gas = 0 /\ p < 35) /\
          (level = "bad" <-> gas = 1 /\ 75 <= p) /\
          (level = "moderate" <->
           ~ (gas = 0 /\ p < 35) /\ ~ (gas = 1 /\ 75 <= p))
      end
    else level = "off".
Proof.
  intros w' gas pm2_5.
  assert (Hgas : gas = 0 \/ gas = 1).
  { subst gas. unfold read_mq135, GPIO_input.
    destruct (gpio_in env MQ135_PIN); auto. }
  split; [exact Hgas|].
  subst w'. rewrite main_loop_body_world, main_loop_body_trace.
  fold gas pm2_5. rewrite led_calls_app, led_calls_cycle_events.
  destruct (apply_latest_commands_quiet (control_api env) w) as (_ & -> & _).
  eexists. split; [reflexivity|].
  cbn [cycle_world led_enabled]. unfold indicator.
  destruct (led_enabled _); [|reflexivity].
  destruct pm2_5 as [p|]; [|reflexivity].
  destruct Hgas as [-> | ->]; cbn [Z.eqb andb orb Pos.eqb];
    destruct (p <? 35) eqn:H35; destruct (p <? 75) eqn:H75;
    try apply Z.ltb_lt in H35; try apply Z.ltb_ge in H35;
    try apply Z.ltb_lt in H75; try apply Z.ltb_ge in H75;
    (split; [|split]); split;
    try discriminate; try reflexivity; try lia;
    try (intros [[] []]; lia || discriminate);
    try (intros _; split; lia).
Qed.

(** * Telemetry *)

Lemma float_ne_differs last x : float_ne last x = true <-> differs_float last x.
Proof.
  unfold float_ne, differs_float. destruct last as [l|].
  - rewrite negb_true_iff. split.
    + intros H. right. eauto.
    + intros [H|(l' & [= <-] & H)]; [discriminate|exact H].
  - split; auto.
Qed.

Lemma int_ne_differs last x : int_ne last x = true <-> differs_int last x.
Proof.
  unfold int_ne, differs_int. destruct last as [l|].
  - rewrite negb_true_iff, Z.eqb_neq. split.
    + intros H. right. eauto.
    + intros [H|(l' & [= <-] & H)]; [discriminate|exact H].
  - split; auto.
Qed.

Lemma changed_float_reported reading last :
  reported_on_change differs_float PyFloat reading last
    (from_option Some last (changed_float last reading))
    (option_list (PyFloat <$> changed_float last reading)).
Proof.
  unfold reported_on_change, changed_float.
  destruct reading as [x|]; cycle 1.
  { cbn. split; [|auto]. intros v. split; [contradiction|].
    intros (x & H & _). discriminate. }
  destruct (float_ne last x) eqn:Hne; cbn.
  - apply float_ne_differs in Hne. split; [|split; [lia|discriminate]].
    intros v. split.
    + intros [<-|[]]. eauto.
    + intros (x' & [= <-] & _ & ->). auto.
  - split; [|split; [lia|discriminate]].
    intros v. split; [contradiction|].
    intros (x' & [= <-] & H & _). apply float_ne_differs in H. congruence.
Qed.

Lemma changed_int_reported reading last :
  reported_on_change differs_int PyInt reading last
    (from_option Some last (changed_int last reading))
    (option_list (PyInt <$> changed_int last reading)).
Proof.
  unfold reported_on_change, changed_int.
  destruct reading as [x|]; cycle 1.
  { cbn. split; [|auto]. intros v. split; [contradiction|].
    intros (x & H & _). discriminate. }
  destruct (int_ne last x) eqn:Hne; cbn.
  - apply int_ne_differs in Hne. split; [|split; [lia|discriminate]].
    intros v. split.
    + intros [<-|[]]. eauto.
    + intros (x' & [= <-] & _ & ->). auto.
  - split; [|split; [lia|discriminate]].
    intros v. split; [contradiction|].
    intros (x' & [= <-] & H & _). apply int_ne_differs in H. congruence.
Qed.

(** The values an iteration posts for one sensor type. *)
Lemma main_loop_body_posts_for st env w :
  posts_for st (run_trace (main_loop_body env) w) =
  posts_for st
    (cycle_events (backend_api env)
       (read_dht11 (dht_device env)).1 (read_dht11 (dht_device env)).2
       (read_pms7003 (ser env)).1 (read_mq135 (gpio_in env))
       (run_world (apply_latest_commands (control_api env)) w)).
Proof.
  rewrite main_loop_body_trace, posts_for_app.
  destruct (apply_latest_commands_quiet (control_api env) w) as (_ & _ & H).
  rewrite H. reflexivity.
Qed.

(** C7. In each iteration and for each of temperature, humidity and pm2.5,
    a value is posted exactly when the fresh reading is present and differs
    from the stored last-sent value or none is stored; at most one value is
    posted; an absent reading posts nothing and leaves the stored value. *)
Theorem telemetry_on_change (env : Env) (w : World) :
  let w' := run_world (main_loop_body env) w in
  let tr := run_trace (main_loop_body env) w in
  reported_on_change differs_float PyFloat
    (read_dht11 (dht_device env)).1 (last_sent_temp w) (last_sent_temp w')
    (posts_for "temperature" tr) /\
  reported_on_change differs_float PyFloat
    (read_dht11 (dht_device env)).2 (last_sent_humid w) (last_sent_humid w')
    (posts_for "humidity" tr) /\
  reported_on_change differs_int PyInt
    (read_pms7003 (ser env)).1 (last_sent_pm2_5 w) (last_sent_pm2_5 w')
    (posts_for "pm25" tr).
Proof.
  intros w' tr. subst w' tr.
  rewrite !main_loop_body_posts_for, !posts_for_cycle_events.
  rewrite main_loop_body_world. cbn [cycle_world last_sent_temp
    last_sent_humid last_sent_pm2_5 String.eqb Ascii.eqb Bool.eqb app].
  destruct (apply_latest_commands_last_sent (control_api env) w)
    as (-> & -> & ->).
  rewrite !app_nil_r.
  split; [apply changed_float_reported|].
  split; [apply changed_float_reported|apply changed_int_reported].
Qed.

(** C10. The posts of an iteration carry only the sensor types
    "temperature", "humidity" and "pm25"; they and the stored last-sent
    values are the same whatever the input pins read, so the gas level is
    never reported and nothing is stored for it. *)
Theorem gas_never_reported (env : Env) (w : World) (levels : Z -> bool) :
  let env' :=
    mkEnv (dht_device env) (ser env) levels (control_api env)
          (backend_api env) in
  Forall (fun p => p.1 = "temperature" \/ p.1 = "humidity" \/ p.1 = "pm25")
         (posts (run_trace (main_loop_body env) w)) /\
  posts (run_trace (main_loop_body env') w) =
    posts (run_trace (main_loop_body env) w) /\
  last_sent_temp (run_world (main_loop_body env') w) =
    last_sent_temp (run_world (main_loop_body env) w) /\
  last_sent_humid (run_world (main_loop_body env') w) =
    last_sent_humid (run_world (main_loop_body env) w) /\
  last_sent_pm2_5 (run_world (main_loop_body env') w) =
    last_sent_pm2_5 (run_world (main_loop_body env) w).
Proof.
  intros env'. subst env'.
  rewrite !main_loop_body_world, !main_loop_body_trace, !posts_app.
  cbn [dht_device ser gpio_in control_api backend_api].
  rewrite !posts_cycle_events.
  split; [|repeat split; reflexivity].
  destruct (apply_latest_commands_quiet (control_api env) w) as (-> & _).
  cbn [app].
  destruct (changed_float _ (read_dht11 (dht_device env)).1),
           (changed_float _ (read_dht11 (dht_device env)).2),
           (changed_int _ (read_pms7003 (ser env)).1);
    cbn [fmap option_fmap option_map option_list app];
    repeat (first [apply List.Forall_nil
                  | apply List.Forall_cons; [cbn [fst]; auto|]]).
Qed.

(** C1, as the script behaves.  The stored last-sent value of a metric
    becomes the fresh reading whenever a send is attempted for it, and the
    globals and pins an iteration leaves do not depend on what the backend
    answers; so after an iteration that read a value, an iteration that
    reads the same value posts nothing for that metric, also when the first
    send failed. *)
Theorem last_sent_follows_attempt (env : Env) (w : World) :
  let w' := run_world (main_loop_body env) w in
  let temp := (read_dht11 (dht_device env)).1 in
  let humid := (read_dht11 (dht_device env)).2 in
  let pm2_5 := (read_pms7003 (ser env)).1 in
  (forall backend,
     run_world
       (main_loop_body
          (mkEnv (dht_device env) (ser env) (gpio_in env) (control_api env)
                 backend)) w = w') /\
  (forall t, temp = Some t -> differs_float (last_sent_temp w) t ->
             last_sent_temp w' = Some t) /\
  (forall h, humid = Some h -> differs_float (last_sent_humid w) h ->
             last_sent_humid w' = Some h) /\
  (forall p, pm2_5 = Some p -> differs_int (last_sent_pm2_5 w) p ->
             last_sent_pm2_5 w' = Some p) /\
  (forall env2 t,
     temp = Some t -> (read_dht11 (dht_device env2)).1 = Some t ->
     PrimFloat.eqb t t = true ->
     posts_for "temperature" (run_trace (main_loop_body env2) w') = []) /\
  (forall env2 h,
     humid = Some h -> (read_dht11 (dht_device env2)).2 = Some h ->
     PrimFloat.eqb h h = true ->
     posts_for "humidity" (run_trace (main_loop_body env2) w') = []) /\
  (forall env2 p,
     pm2_5 = Some p -> (read_pms7003 (ser env2)).1 = Some p ->
     posts_for "pm25" (run_trace (main_loop_body env2) w') = []).
Proof.
  intros w' temp humid pm2_5.
  assert (Hw' : w' =
    cycle_world temp humid pm2_5 (read_mq135 (gpio_in env))
      (run_world (apply_latest_commands (control_api env)) w))
    by apply main_loop_body_world.
  destruct (apply_latest_commands_last_sent (control_api env) w)
    as (Ht & Hh & Hp).
  assert (Hlt : last_sent_temp w' =
                from_option Some (last_sent_temp w)
                  (changed_float (last_sent_temp w) temp))
    by (rewrite Hw'; cbn [cycle_world last_sent_temp]; rewrite Ht; reflexivity).
  assert (Hlh : last_sent_humid w' =
                from_option Some (last_sent_humid w)
                  (changed_float (last_sent_humid w) humid))
    by (rewrite Hw'; cbn [cycle_world last_sent_humid]; rewrite Hh;
        reflexivity).
  assert (Hlp : last_sent_pm2_5 w' =
                from_option Some (last_sent_pm2_5 w)
                  (changed_int (last_sent_pm2_5 w) pm2_5))
    by (rewrite Hw'; cbn [cycle_world last_sent_pm2_5]; rewrite Hp;
        reflexivity).
  clearbody w'.
  split; [|split; [|split; [|split; [|split; [|split]]]]].
  - intros backend. rewrite main_loop_body_world. symmetry. exact Hw'.
  - intros t Hr Hd. rewrite Hlt, Hr. unfold changed_float.
    apply float_ne_differs in Hd. rewrite Hd. reflexivity.
  - intros h Hr Hd. rewrite Hlh, Hr. unfold changed_float.
    apply float_ne_differs in Hd. rewrite Hd. reflexivity.
  - intros p Hr Hd. rewrite Hlp, Hr. unfold changed_int.
    apply int_ne_differs in Hd. rewrite Hd. reflexivity.
  - intros env2 t Hr Hr2 Hrefl.
    rewrite main_loop_body_posts_for, posts_for_cycle_events.
    cbn [String.eqb Ascii.eqb Bool.eqb app]. rewrite app_nil_r.
    destruct (apply_latest_commands_last_sent (control_api env2) w')
      as (-> & _).
    rewrite Hr2, Hlt, Hr. unfold changed_float.
    destruct (float_ne (last_sent_temp w) t) eqn:Hne; cbn [from_option].
    + cbn [float_ne]. rewrite Hrefl. reflexivity.
    + rewrite Hne. reflexivity.
  - intros env2 h Hr Hr2 Hrefl.
    rewrite main_loop_body_posts_for, posts_for_cycle_events.
    cbn [String.eqb Ascii.eqb Bool.eqb app]. rewrite app_nil_r.
    destruct (apply_latest_commands_last_sent (control_api env2) w')
      as (_ & -> & _).
    rewrite Hr2, Hlh, Hr. unfold changed_float.
    destruct (float_ne (last_sent_humid w) h) eqn:Hne; cbn [from_option].
    + cbn [float_ne]. rewrite Hrefl. reflexivity.
    + rewrite Hne. reflexivity.
  - intros env2 p Hr Hr2.
    rewrite main_loop_body_posts_for, posts_for_cycle_events.
    cbn [String.eqb Ascii.eqb Bool.eqb app].
    destruct (apply_latest_commands_last_sent (control_api env2) w')
      as (_ & _ & ->).
    rewrite Hr2, Hlp, Hr. unfold changed_int.
    destruct (int_ne (last_sent_pm2_5 w) p) eqn:Hne; cbn [from_option].
    + cbn [int_ne]. rewrite Z.eqb_refl. reflexivity.
    + rewrite Hne. reflexivity.
Qed.

(** C1, as the specification states it, fails.  With the backend
    unreachable the send of 25.0 degrees fails, yet the stored last-sent
    temperature goes from none to 25.0, and the next iteration, reading
    25.0 again, attempts no send. *)
Lemma failed_send_still_stored :
  backend_api env_backend_down "temperature" = ConnectionFailed /\
  In (Stdout (MsgBackendError "temperature"))
     (run_trace (main_loop_body env_backend_down) power_on) /\
  last_sent_temp power_on = None /\
  last_sent_temp (run_world (main_loop_body env_backend_down) power_on)
    = Some 25.0%float /\
  last_sent_temp (run_world (main_loop_body env_backend_down) power_on)
    <> last_sent_temp power_on /\
  posts_for "temperature"
    (run_trace (main_loop_body env_backend_down)
       (run_world (main_loop_body env_backend_down) power_on)) = [] /\
  posts_for "temperature"
    (run_trace (main_loop [env_backend_down; env_backend_down]) power_on)
    = [PyFloat 25.0%float].
Proof.
  repeat split; try (vm_compute; reflexivity).
  - vm_compute. tauto.
  - vm_compute. discriminate.
Qed.

(** * The scenarios of the specification *)

(** 31.0 degrees and pm2.5 = 20 with the gas pin low: fan on, 'good'. *)
Example scenario_hot_clean :
  fan_writes (run_trace (main_loop_body env_hot_clean) power_on) = [true] /\
  led_calls (run_trace (main_loop_body env_hot_clean) power_on) = ["good"] /\
  posts (run_trace (main_loop_body env_hot_clean) power_on) =
    [("temperature", PyFloat 31.0%float); ("humidity", PyFloat 40.0%float);
     ("pm25", PyInt 20)].
Proof. repeat split; vm_compute; reflexivity. Qed.

(** No temperature, pm2.5 = 80 with the gas pin high: fan on, 'bad'. *)
Example scenario_dusty :
  fan_writes (run_trace (main_loop_body env_dusty) power_on) = [true] /\
  led_calls (run_trace (main_loop_body env_dusty) power_on) = ["bad"].
Proof. repeat split; vm_compute; reflexivity. Qed.

(** A manual fan-off at 31.0 degrees: auto-fan off, fan off. *)
Example scenario_manual_off :
  auto_fan_enabled (run_world (main_loop_body env_manual_off) power_on)
    = false /\
  fan_writes (run_trace (main_loop_body env_manual_off) power_on) = [false] /\
  led_enabled (run_world (main_loop_body env_manual_off) power_on) = true.
Proof. repeat split; vm_compute; reflexivity. Qed.

(** An iteration returns: nothing raised in it reaches the loop. *)
Lemma main_loop_body_returns env w :
  run_result (main_loop_body env) w = Ret tt.
Proof. unfold run_result. rewrite main_loop_body_run. reflexivity. Qed.

Lemma main_loop_returns envs w : run_result (main_loop envs) w = Ret tt.
Proof.
  revert w. induction envs as [|env envs IH]; intros w; [reflexivity|].
  unfold run_result in *. cbn [main_loop]. unfold mbind, M_bind.
  rewrite main_loop_body_run.
  specialize (IH (cycle_world (read_dht11 (dht_device env)).1
                    (read_dht11 (dht_device env)).2
                    (read_pms7003 (ser env)).1 (read_mq135 (gpio_in env))
                    (run_world (apply_latest_commands (control_api env)) w))).
  destruct (main_loop envs _) as [[r w2] t2]. exact IH.
Qed.

(** * Start-up and the drivers *)

Lemma setup_gpio_run w :
  setup_gpio w =
  (Ret tt,
   set_gpio_out
     (<[FAN_PIN := false]>
        (<[23 := false]> (<[22 := false]> (<[27 := false]> (gpio_out w))))) w,
   [GpioOutput 27 false; GpioOutput 22 false; GpioOutput 23 false;
    GpioOutput FAN_PIN false; Stdout MsgGpioReady]).
Proof. destruct w. reflexivity. Qed.

(** X1. [setup_gpio] returns normally and drives the three level pins and
    the fan pin low, whatever they held; it writes no other pin (the -1 of
    'off' is skipped) and changes no global. *)
Theorem setup_gpio_all_low (w : World) :
  let w' := run_world setup_gpio w in
  run_result setup_gpio w = Ret tt /\
  (forall name pin,
     In (name, pin) LED_PINS -> pin <> -1 -> gpio_out w' !! pin = Some false) /\
  gpio_out w' !! FAN_PIN = Some false /\
  (forall pin,
     pin <> 27 -> pin <> 22 -> pin <> 23 -> pin <> FAN_PIN ->
     gpio_out w' !! pin = gpio_out w !! pin) /\
  auto_fan_enabled w' = auto_fan_enabled w /\
  led_enabled w' = led_enabled w /\
  last_sent_temp w' = last_sent_temp w /\
  last_sent_humid w' = last_sent_humid w /\
  last_sent_pm2_5 w' = last_sent_pm2_5 w.
Proof.
  intros w'. subst w'. unfold run_result, run_world. rewrite setup_gpio_run.
  cbn [fst snd gpio_out set_gpio_out auto_fan_enabled led_enabled
       last_sent_temp last_sent_humid last_sent_pm2_5].
  unfold FAN_PIN. repeat split.
  - intros name pin Hin Hpin. cbn [LED_PINS In] in Hin.
    destruct Hin as [[= <- <-]|[[= <- <-]|[[= <- <-]|[[= <- <-]|[]]]]].
    + rewrite !lookup_insert_ne by lia. apply lookup_insert_eq.
    + rewrite !lookup_insert_ne by lia. apply lookup_insert_eq.
    + rewrite lookup_insert_ne by lia. apply lookup_insert_eq.
    + contradiction.
  - apply lookup_insert_eq.
  - intros pin H27 H22 H23 H18. rewrite !lookup_insert_ne by congruence.
    reflexivity.
Qed.


(** X10. The two drivers do not disturb each other: [set_led] leaves every
    pin other than the three level pins as it was, the fan pin among them,
    and [control_fan] sets the fan pin to its argument and leaves every
    other pin; neither changes a global, so each leaves the world it found
    but for the pin levels. *)
Theorem actuators_independent (status : string) (state : bool) (w : World)
    (pin : Z) :
  let wl := run_world (set_led status) w in
  let wf := run_world (control_fan state) w in
  (pin <> 27 -> pin <> 22 -> pin <> 23 ->
   gpio_out wl !! pin = gpio_out w !! pin) /\
  gpio_out wl !! FAN_PIN = gpio_out w !! FAN_PIN /\
  (pin <> FAN_PIN -> gpio_out wf !! pin = gpio_out w !! pin) /\
  gpio_out wf !! FAN_PIN = Some state /\
  auto_fan_enabled wl = auto_fan_enabled w /\
  led_enabled wl = led_enabled w /\
  last_sent_temp wl = last_sent_temp w /\
  last_sent_humid wl = last_sent_humid w /\
  last_sent_pm2_5 wl = last_sent_pm2_5 w /\
  auto_fan_enabled wf = auto_fan_enabled w /\
  led_enabled wf = led_enabled w /\
  last_sent_temp wf = last_sent_temp w /\
  last_sent_humid wf = last_sent_humid w /\
  last_sent_pm2_5 wf = last_sent_pm2_5 w /\
  set_gpio_out (gpio_out w) wl = set_gpio_out (gpio_out w) w /\
  set_gpio_out (gpio_out w) wf = set_gpio_out (gpio_out w) w.
Proof.
  intros wl wf. subst wl wf. unfold run_world.
  rewrite set_led_run, control_fan_run.
  cbn [fst snd gpio_out set_gpio_out auto_fan_enabled led_enabled
       last_sent_temp last_sent_humid last_sent_pm2_5].
  repeat split.
  - intros H27 H22 H23. unfold led_levels.
    rewrite !lookup_insert_ne by congruence. reflexivity.
  - apply led_levels_fan_pin.
  - intros H. rewrite lookup_insert_ne by congruence. reflexivity.
  - apply lookup_insert_eq.
Qed.

Lemma led_levels_overwrite s1 s2 g :
  led_levels s2 (led_levels s1 g) = led_levels s2 g.
Proof.
  apply map_eq. intros pin. unfold led_levels.
  rewrite !lookup_insert. repeat case_decide; reflexivity.
Qed.

(** X11. The last [set_led] call wins: calling it with [s2] after a call
    with [s1] leaves the globals and pins that a single call with [s2]
    leaves; in particular repeating a call changes nothing. *)
Theorem set_led_last_call_wins (s1 s2 : string) (w : World) :
  run_world (set_led s2) (run_world (set_led s1) w) =
  run_world (set_led s2) w /\
  run_world (set_led s1) (run_world (set_led s1) w) =
  run_world (set_led s1) w.
Proof.
  unfold run_world. rewrite !set_led_run. cbn [fst snd].
  destruct w. unfold set_gpio_out. cbn [gpio_out last_sent_temp
    last_sent_humid last_sent_pm2_5 auto_fan_enabled led_enabled].
  rewrite !led_levels_overwrite. split; reflexivity.
Qed.

(** * More on the particulate sensor *)

(** X9. [read_pms7003] looks at the first 32 buffered bytes only.  With
    fewer than 32 bytes buffered it returns nothing and consumes nothing;
    otherwise it consumes exactly those 32 bytes, also when they do not
    start with the marker, and its result is the one it gives on that block
    alone. *)
Theorem read_pms7003_consumes (rx : list Byte.byte) :
  ((length rx < 32)%nat ->
   read_pms7003 (Some (SerialBuffer rx)) = (None, Some (SerialBuffer rx))) /\
  ((32 <= length rx)%nat ->
   read_pms7003 (Some (SerialBuffer rx)) =
   ((read_pms7003 (Some (SerialBuffer (firstn 32 rx)))).1,
    Some (SerialBuffer (skipn 32 rx)))).
Proof.
  split; intros Hlen.
  - unfold read_pms7003.
    replace (32 <=? Z.of_nat (length rx)) with false
      by (symmetry; apply Z.leb_gt; lia).
    reflexivity.
  - unfold read_pms7003.
    rewrite length_firstn, Nat.min_l by lia.
    replace (32 <=? Z.of_nat (length rx)) with true
      by (symmetry; apply Z.leb_le; lia).
    replace (32 <=? Z.of_nat 32) with true by reflexivity.
    rewrite firstn_firstn, Nat.min_id.
    destruct (byte_at (firstn 32 rx) 0) as [b0|]; [|reflexivity].
    destruct (byte_at (firstn 32 rx) 1) as [b1|]; [|reflexivity].
    destruct ((b0 =? 66) && (b1 =? 77)); reflexivity.
Qed.

(** * More on command application *)

Lemma fetched_directive_newest code items rest :
  fetched_directive
    (Responded (mkResponse code (Ret (JList (JDict items :: rest))))) =
  if negb (code =? 200) then DNone
  else
    let target := default JNull (assoc "target" items) in
    let action := default JNull (assoc "action" items) in
    if eq_str target "led" then DLed (eq_str action "on")
    else if eq_str target "autoFan" then DAutoFan (eq_str action "enable")
    else if eq_str target "fan" then
      if eq_str (default JNull (assoc "source" items)) "user"
      then DManualFan (eq_str action "on")
      else DNone
    else DNone.
Proof. reflexivity. Qed.

Lemma eq_str_default_false o s :
  o <> Some (JStr s) -> eq_str (default JNull o) s = false.
Proof.
  intros H. destruct (eq_str (default JNull o) s) eqn:E; [|reflexivity].
  apply eq_str_default in E. contradiction.
Qed.

(** X7. Whatever the fetch brings, [apply_latest_commands] returns
    normally, makes exactly one GET and no POST, calls no indicator driver,
    writes no pin other than the fan pin, leaves every other pin and the
    three last-sent values as they were, and changes at most one of the two
    switches. *)
Theorem apply_latest_commands_frame (api : http_outcome) (w : World) :
  let w1 := run_world (apply_latest_commands api) w in
  let tr := run_trace (apply_latest_commands api) w in
  run_result (apply_latest_commands api) w = Ret tt /\
  gets tr = [CONTROL_API_URL] /\
  posts tr = [] /\
  led_calls tr = [] /\
  (forall pin, pin <> FAN_PIN ->
     omap (pin_write pin) tr = [] /\
     gpio_out w1 !! pin = gpio_out w !! pin) /\
  last_sent_temp w1 = last_sent_temp w /\
  last_sent_humid w1 = last_sent_humid w /\
  last_sent_pm2_5 w1 = last_sent_pm2_5 w /\
  (auto_fan_enabled w1 = auto_fan_enabled w \/
   led_enabled w1 = led_enabled w).
Proof.
  intros w1 tr. subst w1 tr.
  destruct (apply_latest_commands_closed api w)
    as (t & H & Hgets & Hposts & _ & Hleds & Hpins).
  unfold run_result, run_world, run_trace. rewrite H. cbn [fst snd].
  split; [reflexivity|].
  split; [unfold gets; cbn [omap list_omap http_get]; fold (gets t);
          rewrite Hgets; reflexivity|].
  split; [exact Hposts|]. split; [exact Hleds|].
  split.
  - intros pin Hpin. split.
    + cbn [omap list_omap pin_write]. rewrite Hpins.
      destruct (fetched_directive api); try reflexivity.
      replace (FAN_PIN =? pin) with false
        by (symmetry; apply Z.eqb_neq; congruence).
      reflexivity.
    + destruct (fetched_directive api); try reflexivity.
      cbn [apply_directive gpio_out set_gpio_out].
      rewrite lookup_insert_ne by congruence. reflexivity.
  - destruct (fetched_directive api); repeat split; auto.
Qed.

(** X4. When the newest fetched directive has target "led", the indicator
    switch becomes (action == "on"): only the string "on" enables it, any
    other or a missing action disables it.  The auto-fan switch keeps its
    value, and when the indicator is switched off the same iteration calls
    the driver with 'off' and ends with the three level pins low, whatever
    the sensors read. *)
Theorem led_directive (env : Env) (w : World) items rest :
  control_api env =
    Responded (mkResponse 200 (Ret (JList (JDict items :: rest)))) ->
  assoc "target" items = Some (JStr "led") ->
  let on := eq_str (default JNull (assoc "action" items)) "on" in
  let w' := run_world (main_loop_body env) w in
  (on = true <-> assoc "action" items = Some (JStr "on")) /\
  led_enabled w' = on /\
  auto_fan_enabled w' = auto_fan_enabled w /\
  (on = false ->
   led_calls (run_trace (main_loop_body env) w) = ["off"] /\
   leds_show "off" (gpio_out w')).
Proof.
  intros Hapi Htarget on w'.
  assert (Hd : fetched_directive (control_api env) = DLed on).
  { rewrite Hapi, fetched_directive_newest, Htarget. reflexivity. }
  split; [apply eq_str_default|]. clearbody on.
  subst w'. rewrite main_loop_body_world, main_loop_body_trace.
  rewrite apply_latest_commands_world, Hd.
  cbn [cycle_world apply_directive led_enabled auto_fan_enabled
       set_led_enabled gpio_out].
  split; [reflexivity|]. split; [reflexivity|].
  intros Hoff. subst on. cbn [indicator].
  rewrite led_calls_app, led_calls_cycle_events.
  destruct (apply_latest_commands_quiet (control_api env) w) as (_ & -> & _).
  cbn [set_led_enabled led_enabled].
  split; [reflexivity|].
  unfold leds_show, led_levels.
  split; [|split].
  - rewrite !lookup_insert_ne by lia. apply lookup_insert_eq.
  - rewrite lookup_insert_ne by lia. apply lookup_insert_eq.
  - apply lookup_insert_eq.
Qed.

Lemma led_directive_witness :
  led_enabled (run_world (main_loop_body env_led_off) power_on) = false /\
  led_calls (run_trace (main_loop_body env_led_off) power_on) = ["off"].
Proof.
  destruct (led_directive env_led_off power_on _ _ eq_refl eq_refl)
    as (_ & H1 & _ & H2).
  split; [exact H1|]. apply H2. reflexivity.
Defined.

(** X5. When the newest fetched directive has target "autoFan", the
    auto-fan switch becomes (action == "enable"): only the string "enable"
    enables it, so an action such as "on" disables it.  The indicator switch
    keeps its value.  When enabled, the same iteration writes the fan pin
    once, with the automatic decision; when disabled, it does not write the
    fan pin. *)
Theorem auto_fan_directive (env : Env) (w : World) items rest :
  control_api env =
    Responded (mkResponse 200 (Ret (JList (JDict items :: rest)))) ->
  assoc "target" items = Some (JStr "autoFan") ->
  let enable := eq_str (default JNull (assoc "action" items)) "enable" in
  let w' := run_world (main_loop_body env) w in
  let decision :=
    fan_target (read_dht11 (dht_device env)).1 (read_pms7003 (ser env)).1 in
  (enable = true <-> assoc "action" items = Some (JStr "enable")) /\
  auto_fan_enabled w' = enable /\
  led_enabled w' = led_enabled w /\
  fan_writes (run_trace (main_loop_body env) w) =
    (if enable then [decision] else []) /\
  gpio_out w' !! FAN_PIN =
    (if enable then Some decision else gpio_out w !! FAN_PIN).
Proof.
  intros Hapi Htarget enable w' decision.
  assert (Hd : fetched_directive (control_api env) = DAutoFan enable).
  { rewrite Hapi, fetched_directive_newest, Htarget. reflexivity. }
  split; [apply eq_str_default|]. clearbody enable.
  subst w'. rewrite main_loop_body_world, main_loop_body_trace.
  rewrite fan_writes_app, fan_writes_cycle_events.
  destruct (apply_latest_commands_closed (control_api env) w)
    as (t & H & _ & _ & _ & _ & Hpins).
  unfold run_trace, run_world. rewrite H. cbn [fst snd].
  unfold fan_writes at 1. cbn [omap list_omap pin_write].
  rewrite Hpins, Hd.
  cbn [cycle_world apply_directive led_enabled auto_fan_enabled
       set_auto_fan_enabled gpio_out app].
  rewrite led_levels_fan_pin.
  split; [reflexivity|]. split; [reflexivity|].
  fold decision. destruct enable.
  - split; [reflexivity|apply lookup_insert_eq].
  - split; reflexivity.
Qed.

Lemma auto_fan_directive_witness :
  auto_fan_enabled (run_world (main_loop_body env_auto_fan_on) power_on)
    = false /\
  fan_writes (run_trace (main_loop_body env_auto_fan_on) power_on) = [].
Proof.
  destruct (auto_fan_directive env_auto_fan_on power_on _ _ eq_refl eq_refl)
    as (_ & H1 & _ & H2 & _).
  exact (conj H1 H2).
Defined.

(** X6. A newest directive that is neither a "led" nor an "autoFan"
    directive nor a "fan" directive of source "user" is ignored: globals and
    pins stay as they were and no pin is written.  A "fan" directive from
    any other source, or without a source, is such a directive. *)
Theorem other_directive_ignored code items rest (w : World) :
  assoc "target" items <> Some (JStr "led") ->
  assoc "target" items <> Some (JStr "autoFan") ->
  (assoc "target" items <> Some (JStr "fan") \/
   assoc "source" items <> Some (JStr "user")) ->
  let api := Responded (mkResponse code (Ret (JList (JDict items :: rest)))) in
  run_result (apply_latest_commands api) w = Ret tt /\
  run_world (apply_latest_commands api) w = w /\
  forall pin, omap (pin_write pin) (run_trace (apply_latest_commands api) w)
              = [].
Proof.
  intros Hled Hauto Hfan api.
  assert (Hd : fetched_directive api = DNone).
  { subst api. rewrite fetched_directive_newest.
    destruct (negb (code =? 200)); [reflexivity|]. cbv zeta.
    rewrite (eq_str_default_false _ _ Hled), (eq_str_default_false _ _ Hauto).
    destruct Hfan as [H|H]; rewrite (eq_str_default_false _ _ H);
      [reflexivity|].
    destruct (eq_str _ "fan"); reflexivity. }
  destruct (apply_latest_commands_closed api w)
    as (t & H & _ & _ & _ & _ & Hpins).
  unfold run_result, run_world, run_trace. rewrite H, Hd in *.
  cbn [fst snd apply_directive].
  repeat split. intros pin. cbn [omap list_omap pin_write]. apply Hpins.
Qed.

Lemma other_directive_ignored_witness :
  run_world (apply_latest_commands (control_api env_fan_not_user)) power_on
  = power_on.
Proof.
  apply (other_directive_ignored 200
           [("target", JStr "fan"); ("action", JStr "off");
            ("source", JStr "schedule")] [] power_on).
  - discriminate.
  - discriminate.
  - right. discriminate.
Defined.

(** * More on the iteration *)



(** * Several iterations *)

Lemma main_loop_cons env envs w :
  main_loop (env :: envs) w =
  (run_result (main_loop envs) (run_world (main_loop_body env) w),
   run_world (main_loop envs) (run_world (main_loop_body env) w),
   run_trace (main_loop_body env) w ++
   run_trace (main_loop envs) (run_world (main_loop_body env) w)).
Proof.
  cbn [main_loop]. unfold mbind, M_bind, run_result, run_world, run_trace.
  rewrite main_loop_body_run. cbn [fst snd].
  destruct (main_loop envs _) as [[r w2] t2]. reflexivity.
Qed.

Lemma main_loop_cons_world env envs w :
  run_world (main_loop (env :: envs)) w =
  run_world (main_loop envs) (run_world (main_loop_body env) w).
Proof. unfold run_world at 1. rewrite main_loop_cons. reflexivity. Qed.

Lemma main_loop_cons_trace env envs w :
  run_trace (main_loop (env :: envs)) w =
  run_trace (main_loop_body env) w ++
  run_trace (main_loop envs) (run_world (main_loop_body env) w).
Proof. unfold run_trace at 1. rewrite main_loop_cons. reflexivity. Qed.

(** The level pins after one iteration show the level it chose. *)
Lemma main_loop_body_leds env w :
  exists level,
    led_calls (run_trace (main_loop_body env) w) = [level] /\
    leds_show level (gpio_out (run_world (main_loop_body env) w)) /\
    In level ["good"; "moderate"; "bad"; "off"].
Proof.
  rewrite main_loop_body_world, main_loop_body_trace.
  rewrite led_calls_app, led_calls_cycle_events.
  destruct (apply_latest_commands_quiet (control_api env) w) as (_ & -> & _).
  eexists. split; [reflexivity|]. split.
  - cbn [cycle_world gpio_out]. unfold leds_show, led_levels.
    split; [|split].
    + rewrite !lookup_insert_ne by lia. apply lookup_insert_eq.
    + rewrite lookup_insert_ne by lia. apply lookup_insert_eq.
    + apply lookup_insert_eq.
  - unfold indicator. cbn [In]. repeat case_match; auto.
Qed.

(** X12. After any positive number of iterations the three level pins show
    the level of the last indicator call, one of 'good', 'moderate', 'bad'
    and 'off'; so no two of them are high together. *)
Theorem leds_one_hot_after_loop (envs : list Env) (w : World) :
  envs <> [] ->
  let g := gpio_out (run_world (main_loop envs) w) in
  exists level,
    last (led_calls (run_trace (main_loop envs) w)) = Some level /\
    leds_show level g /\
    In level ["good"; "moderate"; "bad"; "off"] /\
    ~ (g !! 27 = Some true /\ g !! 22 = Some true) /\
    ~ (g !! 27 = Some true /\ g !! 23 = Some true) /\
    ~ (g !! 22 = Some true /\ g !! 23 = Some true).
Proof.
  intros Hne g. subst g. revert w.
  induction envs as [|env envs IH]; [contradiction|]. intros w.
  rewrite main_loop_cons_world, main_loop_cons_trace, led_calls_app, last_app.
  destruct envs as [|env2 envs].
  - change (run_world (main_loop []) (run_world (main_loop_body env) w))
      with (run_world (main_loop_body env) w).
    change (run_trace (main_loop []) (run_world (main_loop_body env) w))
      with (@nil event).
    cbn [led_calls omap list_omap last].
    destruct (main_loop_body_leds env w) as (level & Hcalls & Hshow & Hin).
    exists level. rewrite Hcalls. split; [reflexivity|].
    split; [exact Hshow|]. split; [exact Hin|].
    destruct Hshow as (H27 & H22 & H23). rewrite H27, H22, H23.
    cbn [In] in Hin.
    destruct Hin as [<-|[<-|[<-|[<-|[]]]]];
      repeat split; intros [[=] [=]].
  - destruct (IH ltac:(discriminate) (run_world (main_loop_body env) w))
      as (level & Hlast & Hrest).
    exists level. rewrite Hlast. split; [reflexivity|exact Hrest].
Qed.

Lemma leds_one_hot_after_loop_witness :
  exists level,
    last (led_calls (run_trace (main_loop [env_hot_clean; env_dusty])
                       power_on)) = Some level /\
    leds_show level
      (gpio_out (run_world (main_loop [env_hot_clean; env_dusty]) power_on)).
Proof.
  destruct (leds_one_hot_after_loop [env_hot_clean; env_dusty] power_on
              ltac:(discriminate)) as (level & H1 & H2 & _).
  exists level. exact (conj H1 H2).
Defined.

(** X13. A switched-off auto-fan stays off, and the fan pin stays where it
    is, for as long as the fetches bring nothing (they fail, or the list is
    empty): through any number of such iterations the fan pin is never
    written, whatever the sensors read. *)
Theorem manual_setting_persists (envs : list Env) (w : World) :
  auto_fan_enabled w = false ->
  Forall (fun env => brings_nothing (control_api env)) envs ->
  let w' := run_world (main_loop envs) w in
  auto_fan_enabled w' = false /\
  gpio_out w' !! FAN_PIN = gpio_out w !! FAN_PIN /\
  fan_writes (run_trace (main_loop envs) w) = [].
Proof.
  intros Hoff Hall w'. subst w'. revert w Hoff.
  induction Hall as [|env envs Hnone _ IH]; intros w Hoff.
  - repeat split; auto.
  - rewrite main_loop_cons_world, main_loop_cons_trace, fan_writes_app.
    assert (Hw1 : run_world (apply_latest_commands (control_api env)) w = w).
    { rewrite apply_latest_commands_world,
        (brings_nothing_directive _ Hnone). reflexivity. }
    assert (Ht1 : fan_writes
                    (run_trace (apply_latest_commands (control_api env)) w)
                  = []).
    { destruct (apply_latest_commands_closed (control_api env) w)
        as (t & H & _ & _ & _ & _ & Hpins).
      unfold run_trace. rewrite H. cbn [snd]. unfold fan_writes.
      cbn [omap list_omap pin_write]. rewrite Hpins.
      rewrite (brings_nothing_directive _ Hnone). reflexivity. }
    assert (Hstep : auto_fan_enabled (run_world (main_loop_body env) w)
                    = false /\
                    gpio_out (run_world (main_loop_body env) w) !! FAN_PIN
                    = gpio_out w !! FAN_PIN /\
                    fan_writes (run_trace (main_loop_body env) w) = []).
    { rewrite main_loop_body_world, main_loop_body_trace, fan_writes_app.
      rewrite fan_writes_cycle_events, Hw1, Ht1.
      cbn [cycle_world auto_fan_enabled gpio_out].
      rewrite led_levels_fan_pin, Hoff. repeat split; reflexivity. }
    destruct Hstep as (Hauto & Hpin & Hwrites).
    destruct (IH _ Hauto) as (IH1 & IH2 & IH3).
    rewrite IH1, IH2, IH3, Hpin, Hwrites. repeat split; reflexivity.
Qed.

Lemma manual_setting_persists_witness :
  gpio_out (run_world (main_loop [env_hot_clean; env_dusty])
              manual_off_world) !! FAN_PIN = Some false /\
  fan_writes (run_trace (main_loop [env_hot_clean; env_dusty])
                manual_off_world) = [].
Proof.
  assert (Hall : Forall (fun env => brings_nothing (control_api env))
                        [env_hot_clean; env_dusty]).
  { repeat (apply List.Forall_cons; [right; reflexivity|]).
    apply List.Forall_nil. }
  destruct (manual_setting_persists [env_hot_clean; env_dusty]
              manual_off_world eq_refl Hall) as (_ & H1 & H2).
  split; [rewrite H1; reflexivity|exact H2].
Defined.

(** ** A reading that stays the same *)

Section Steady.
Context {A : Type} (ne : option A -> A -> bool) (inj : A -> pyval).
Context (sensor_type : string) (stored : World -> option A).
Context (reads : Env -> Prop) (x : A).

Hypothesis ne_refl : ne (Some x) x = false.
Hypothesis step : forall env w,
  reads env ->
  posts_for sensor_type (run_trace (main_loop_body env) w) =
    (if ne (stored w) x then [inj x] else []) /\
  stored (run_world (main_loop_body env) w) =
    (if ne (stored w) x then Some x else stored w).

Lemma steady_quiet envs :
  Forall reads envs ->
  forall w, ne (stored w) x = false ->
            posts_for sensor_type (run_trace (main_loop envs) w) = [].
Proof.
  induction 1 as [|env envs Hreads _ IH]; intros w Hsame; [reflexivity|].
  rewrite main_loop_cons_trace, posts_for_app.
  destruct (step env w Hreads) as (Hposts & Hstored).
  rewrite Hposts, Hsame. rewrite Hsame in Hstored.
  apply IH. rewrite Hstored. exact Hsame.
Qed.

Lemma steady_once envs :
  envs <> [] ->
  Forall reads envs ->
  forall w, posts_for sensor_type (run_trace (main_loop envs) w) =
            if ne (stored w) x then [inj x] else [].
Proof.
  intros Hne Hall w. destruct Hall as [|env envs Hreads Hall]; [contradiction|].
  rewrite main_loop_cons_trace, posts_for_app.
  destruct (step env w Hreads) as (Hposts & Hstored).
  rewrite Hposts, (steady_quiet envs Hall), app_nil_r; [reflexivity|].
  rewrite Hstored. destruct (ne (stored w) x) eqn:E; [exact ne_refl|exact E].
Qed.
End Steady.

Lemma temp_step t env w :
  (read_dht11 (dht_device env)).1 = Some t ->
  posts_for "temperature" (run_trace (main_loop_body env) w) =
    (if float_ne (last_sent_temp w) t then [PyFloat t] else []) /\
  last_sent_temp (run_world (main_loop_body env) w) =
    (if float_ne (last_sent_temp w) t then Some t else last_sent_temp w).
Proof.
  intros Hread.
  rewrite main_loop_body_posts_for, posts_for_cycle_events.
  rewrite main_loop_body_world, Hread.
  cbn [String.eqb Ascii.eqb Bool.eqb app cycle_world last_sent_temp
       changed_float].
  destruct (apply_latest_commands_last_sent (control_api env) w) as (-> & _).
  rewrite app_nil_r.
  destruct (float_ne (last_sent_temp w) t); split; reflexivity.
Qed.

Lemma humid_step h env w :
  (read_dht11 (dht_device env)).2 = Some h ->
  posts_for "humidity" (run_trace (main_loop_body env) w) =
    (if float_ne (last_sent_humid w) h then [PyFloat h] else []) /\
  last_sent_humid (run_world (main_loop_body env) w) =
    (if float_ne (last_sent_humid w) h then Some h else last_sent_humid w).
Proof.
  intros Hread.
  rewrite main_loop_body_posts_for, posts_for_cycle_events.
  rewrite main_loop_body_world, Hread.
  cbn [String.eqb Ascii.eqb Bool.eqb app cycle_world last_sent_humid
       changed_float].
  destruct (apply_latest_commands_last_sent (control_api env) w)
    as (_ & -> & _).
  rewrite app_nil_r.
  destruct (float_ne (last_sent_humid w) h); split; reflexivity.
Qed.

Lemma pm2_5_step p env w :
  (read_pms7003 (ser env)).1 = Some p ->
  posts_for "pm25" (run_trace (main_loop_body env) w) =
    (if int_ne (last_sent_pm2_5 w) p then [PyInt p] else []) /\
  last_sent_pm2_5 (run_world (main_loop_body env) w) =
    (if int_ne (last_sent_pm2_5 w) p then Some p else last_sent_pm2_5 w).
Proof.
  intros Hread.
  rewrite main_loop_body_posts_for, posts_for_cycle_events.
  rewrite main_loop_body_world, Hread.
  cbn [String.eqb Ascii.eqb Bool.eqb app cycle_world last_sent_pm2_5
       changed_int].
  destruct (apply_latest_commands_last_sent (control_api env) w)
    as (_ & _ & ->).
  destruct (int_ne (last_sent_pm2_5 w) p); split; reflexivity.
Qed.

(** X14. Over any positive number of iterations that all read the same
    value of a metric, that metric is posted once, in the first iteration,
    if the value differs from the stored one, and never otherwise, whatever
    the backend answers.  For the two float metrics the value has to equal
    itself (it is not a NaN). *)
Theorem steady_reading_posted_once (envs : list Env) (w : World) :
  envs <> [] ->
  (forall t,
     Forall (fun env => (read_dht11 (dht_device env)).1 = Some t) envs ->
     PrimFloat.eqb t t = true ->
     posts_for "temperature" (run_trace (main_loop envs) w) =
     if float_ne (last_sent_temp w) t then [PyFloat t] else []) /\
  (forall h,
     Forall (fun env => (read_dht11 (dht_device env)).2 = Some h) envs ->
     PrimFloat.eqb h h = true ->
     posts_for "humidity" (run_trace (main_loop envs) w) =
     if float_ne (last_sent_humid w) h then [PyFloat h] else []) /\
  (forall p,
     Forall (fun env => (read_pms7003 (ser env)).1 = Some p) envs ->
     posts_for "pm25" (run_trace (main_loop envs) w) =
     if int_ne (last_sent_pm2_5 w) p then [PyInt p] else []).
Proof.
  intros Hne. split; [|split].
  - intros t Hall Hrefl.
    apply (steady_once float_ne PyFloat "temperature" last_sent_temp
             (fun env => (read_dht11 (dht_device env)).1 = Some t) t);
      [cbn [float_ne]; rewrite Hrefl; reflexivity
      |intros env w0; apply temp_step|exact Hne|exact Hall].
  - intros h Hall Hrefl.
    apply (steady_once float_ne PyFloat "humidity" last_sent_humid
             (fun env => (read_dht11 (dht_device env)).2 = Some h) h);
      [cbn [float_ne]; rewrite Hrefl; reflexivity
      |intros env w0; apply humid_step|exact Hne|exact Hall].
  - intros p Hall.
    apply (steady_once int_ne PyInt "pm25" last_sent_pm2_5
             (fun env => (read_pms7003 (ser env)).1 = Some p) p);
      [cbn [int_ne]; rewrite Z.eqb_refl; reflexivity
      |intros env w0; apply pm2_5_step|exact Hne|exact Hall].
Qed.

Lemma steady_reading_posted_once_witness :
  posts_for "pm25"
    (run_trace (main_loop [env_hot_clean; env_manual_off; env_led_off])
       power_on) = [PyInt 20].
Proof.
  destruct (steady_reading_posted_once
              [env_hot_clean; env_manual_off; env_led_off] power_on
              ltac:(discriminate)) as (_ & _ & H).
  apply (H 20).
  repeat (apply List.Forall_cons; [reflexivity|]). apply List.Forall_nil.
Defined.

(** X8. No fault of a sensor, of the network or of a payload ends the
    loop: any number of iterations, in any environment and from any state,
    returns normally. *)
Theorem main_loop_never_raises (envs : list Env) (w : World) :
  run_result (main_loop envs) w = Ret tt.
Proof.
  revert w. induction envs as [|env envs IH]; intros w; [reflexivity|].
  unfold run_result. rewrite main_loop_cons. apply IH.
Qed.

(** ** The shape of an iteration *)

Lemma cycle_events_shape api temp humid pm2_5 gas w1 :
  exists t,
    cycle_events api temp humid pm2_5 gas w1 = t ++ [Sleep 5] /\
    gets t = [] /\ sleeps t = [].
Proof.
  exists (post_events api "temperature"
            (PyFloat <$> changed_float (last_sent_temp w1) temp) ++
          post_events api "humidity"
            (PyFloat <$> changed_float (last_sent_humid w1) humid) ++
          post_events api "pm25"
            (PyInt <$> changed_int (last_sent_pm2_5 w1) pm2_5) ++
          fan_events (auto_fan_enabled w1) (fan_target temp pm2_5) ++
          led_events (indicator (led_enabled w1) gas pm2_5) ++
          [Stdout (MsgStatus temp humid pm2_5 (auto_fan_enabled w1)
                     (led_enabled w1))]).
  split; [unfold cycle_events; rewrite <- !app_assoc; reflexivity|].
  unfold gets, sleeps. rewrite !omap_app.
  destruct (changed_float (last_sent_temp w1) temp),
           (changed_float (last_sent_humid w1) humid),
           (changed_int (last_sent_pm2_5 w1) pm2_5),
           (auto_fan_enabled w1); split; reflexivity.
Qed.

(** X15. Every iteration starts with the one GET of the command endpoint
    and ends with the one sleep, of 5 seconds; the sensor types it posts
    form a subsequence of temperature, humidity, pm25, so it makes at most
    three POSTs, each type at most once and in this order. *)
Theorem iteration_shape (env : Env) (w : World) :
  let tr := run_trace (main_loop_body env) w in
  (exists t,
     tr = HttpGet CONTROL_API_URL :: t ++ [Sleep 5] /\
     gets t = [] /\ sleeps t = []) /\
  sublist (map fst (posts tr)) ["temperature"; "humidity"; "pm25"].
Proof.
  intros tr. subst tr. rewrite main_loop_body_trace. split.
  - destruct (apply_latest_commands_closed (control_api env) w)
      as (t1 & H & Hgets & _ & Hsleeps & _).
    unfold run_trace at 1. rewrite H. cbn [snd].
    destruct (cycle_events_shape (backend_api env)
                (read_dht11 (dht_device env)).1
                (read_dht11 (dht_device env)).2
                (read_pms7003 (ser env)).1 (read_mq135 (gpio_in env))
                (run_world (apply_latest_commands (control_api env)) w))
      as (t2 & -> & Hgets2 & Hsleeps2).
    exists (t1 ++ t2). split; [|split].
    + rewrite <- app_comm_cons, app_assoc. reflexivity.
    + unfold gets in *. rewrite omap_app, Hgets, Hgets2. reflexivity.
    + unfold sleeps in *. rewrite omap_app, Hsleeps, Hsleeps2. reflexivity.
  - rewrite posts_app, posts_cycle_events.
    destruct (apply_latest_commands_quiet (control_api env) w) as (-> & _).
    cbn [app].
    destruct (changed_float _ (read_dht11 (dht_device env)).1),
             (changed_float _ (read_dht11 (dht_device env)).2),
             (changed_int _ (read_pms7003 (ser env)).1);
      cbn [fmap option_fmap option_map option_list app map fst];
      repeat first [apply sublist_nil | apply sublist_skip
                   | apply sublist_cons].
Qed.

(** X16. Started with nothing stored, as the module initialises its
    globals, an iteration posts every reading that is present, and only
    those, and afterwards stores exactly the readings it made. *)
Theorem first_iteration_posts_all (env : Env) (w : World) :
  last_sent_temp w = None ->
  last_sent_humid w = None ->
  last_sent_pm2_5 w = None ->
  let w' := run_world (main_loop_body env) w in
  let temp := (read_dht11 (dht_device env)).1 in
  let humid := (read_dht11 (dht_device env)).2 in
  let pm2_5 := (read_pms7003 (ser env)).1 in
  posts (run_trace (main_loop_body env) w) =
    option_list (pair "temperature" <$> (PyFloat <$> temp)) ++
    option_list (pair "humidity" <$> (PyFloat <$> humid)) ++
    option_list (pair "pm25" <$> (PyInt <$> pm2_5)) /\
  last_sent_temp w' = temp /\
  last_sent_humid w' = humid /\
  last_sent_pm2_5 w' = pm2_5.
Proof.
  intros Ht Hh Hp w' temp humid pm2_5. subst w'.
  rewrite main_loop_body_trace, main_loop_body_world, posts_app,
    posts_cycle_events.
  destruct (apply_latest_commands_quiet (control_api env) w) as (-> & _).
  cbn [app cycle_world last_sent_temp last_sent_humid last_sent_pm2_5].
  destruct (apply_latest_commands_last_sent (control_api env) w)
    as (-> & -> & ->).
  rewrite Ht, Hh, Hp. fold temp humid pm2_5.
  destruct temp, humid, pm2_5; repeat split; reflexivity.
Qed.

Lemma first_iteration_posts_all_witness :
  posts (run_trace (main_loop_body env_dusty) power_on) = [("pm25", PyInt 80)].
Proof.
  apply (first_iteration_posts_all env_dusty power_on eq_refl eq_refl eq_refl).
Defined.

(** X17. A switched-off indicator stays off for as long as the fetches
    bring nothing: through any number of such iterations every indicator
    call is made with 'off', and after at least one of them the three level
    pins are low, whatever the sensors read. *)
Theorem indicator_stays_off (envs : list Env) (w : World) :
  led_enabled w = false ->
  Forall (fun env => brings_nothing (control_api env)) envs ->
  let w' := run_world (main_loop envs) w in
  led_enabled w' = false /\
  Forall (fun level => level = "off")
         (led_calls (run_trace (main_loop envs) w)) /\
  (envs <> [] -> leds_show "off" (gpio_out w')).
Proof.
  intros Hoff Hall w'. subst w'. revert w Hoff.
  induction Hall as [|env envs Hnone Hall IH]; intros w Hoff.
  - split; [exact Hoff|]. split; [apply List.Forall_nil|contradiction].
  - rewrite main_loop_cons_world, main_loop_cons_trace, led_calls_app.
    assert (Hw1 : run_world (apply_latest_commands (control_api env)) w = w).
    { rewrite apply_latest_commands_world,
        (brings_nothing_directive _ Hnone). reflexivity. }
    assert (Hstep : led_enabled (run_world (main_loop_body env) w) = false /\
                    led_calls (run_trace (main_loop_body env) w) = ["off"] /\
                    leds_show "off"
                      (gpio_out (run_world (main_loop_body env) w))).
    { rewrite main_loop_body_world, main_loop_body_trace, led_calls_app.
      rewrite led_calls_cycle_events, Hw1.
      destruct (apply_latest_commands_quiet (control_api env) w)
        as (_ & -> & _).
      cbn [cycle_world led_enabled gpio_out app]. rewrite Hoff.
      cbn [indicator]. split; [reflexivity|]. split; [reflexivity|].
      unfold leds_show, led_levels. split; [|split].
      - rewrite !lookup_insert_ne by lia. apply lookup_insert_eq.
      - rewrite lookup_insert_ne by lia. apply lookup_insert_eq.
      - apply lookup_insert_eq. }
    destruct Hstep as (Hled & Hcalls & Hshow).
    destruct (IH _ Hled) as (IH1 & IH2 & IH3).
    split; [exact IH1|]. split.
    + rewrite Hcalls. apply List.Forall_cons; [reflexivity|exact IH2].
    + intros _. destruct envs as [|env2 envs].
      * exact Hshow.
      * apply IH3. discriminate.
Qed.

Lemma indicator_stays_off_witness :
  Forall (fun level => level = "off")
    (led_calls
       (run_trace (main_loop [env_hot_clean; env_dusty])
          (run_world (main_loop_body env_led_off) power_on))).
Proof.
  assert (Hall : Forall (fun env => brings_nothing (control_api env))
                        [env_hot_clean; env_dusty]).
  { repeat (apply List.Forall_cons; [right; reflexivity|]).
    apply List.Forall_nil. }
  destruct (indicator_stays_off [env_hot_clean; env_dusty]
              (run_world (main_loop_body env_led_off) power_on)
              eq_refl Hall) as (_ & H & _).
  exact H.
Defined.
